(** * PECI customisation of the hx30 board: a shallow embedding

    The functions of [board/hx30/peci_customization.c] are embedded as
    computations in a small state-and-failure monad.  The state is the
    [world]: the two function-local statics of [stop_read_peci_temp], the
    behaviour of the collaborators the file calls ([get_time],
    [chipset_in_state], [board_get_version], [peci_transaction],
    [espi_oob_peci_transaction], [espi_oob_retry_receive_date]) and the log
    of the calls made to them.  A computation yields [None] where the C
    program indexes an array outside its bounds. *)

From Stdlib Require Import ZArith List Lia Bool.
From Stdlib Require String.
Import String.StringSyntax.
Import ListNotations.
Local Open Scope Z_scope.

(** ** Machine integers

    C integers are carried as [Z]; the wrap-around of each width is written
    out where the code computes with them. *)

Definition uint8 (x : Z) : Z := x mod 2 ^ 8.
Definition uint16 (x : Z) : Z := x mod 2 ^ 16.
Definition uint32 (x : Z) : Z := x mod 2 ^ 32.
Definition uint64 (x : Z) : Z := x mod 2 ^ 64.
Definition int32 (x : Z) : Z := (x + 2 ^ 31) mod 2 ^ 32 - 2 ^ 31.
Definition INT_MAX : Z := 2 ^ 31 - 1.

(** ** C arrays

    A fixed-size array is a list of that length.  [load] and [store] are
    the indexed read and write; outside the bounds the C program has no
    defined behaviour, which is [None] here. *)

Definition zeros (n : Z) : list Z := repeat 0 (Z.to_nat n).

Definition load (a : list Z) (i : Z) : option Z :=
  if i <? 0 then None else nth_error a (Z.to_nat i).

Fixpoint store_nat (a : list Z) (i : nat) (v : Z) : option (list Z) :=
  match a, i with
  | [], _ => None
  | _ :: tl, O => Some (v :: tl)
  | x :: tl, S j =>
      match store_nat tl j v with
      | Some tl' => Some (x :: tl')
      | None => None
      end
  end.

Definition store (a : list Z) (i : Z) (v : Z) : option (list Z) :=
  if i <? 0 then None else store_nat a (Z.to_nat i) v.

(** What a collaborator leaves in a receive buffer of [n] bytes: the bytes
    it delivered, cut to the buffer, the rest of the buffer as it was
    initialised (zero). *)
Definition fit (n : nat) (rx : list Z) : list Z := firstn n (rx ++ repeat 0 n).

(** What a collaborator leaves in the receive buffer [buf] it was handed:
    the bytes it delivered, written from the start of the buffer and cut
    to its size, the rest of the buffer as it was.  For a buffer
    initialised to zero this is [fit]. *)
Definition receive (buf rx : list Z) : list Z :=
  firstn (length buf) (rx ++ skipn (length rx) buf).

(** ** Constants of the headers

    [common.h] is not part of the sources at hand.  The file tests a status
    with [if (rv)] and [!rv] and returns [EC_SUCCESS] on the fall-through
    paths: success is the zero status. *)
Definition EC_SUCCESS : Z := 0.

(** The remaining constants and macros of [common.h], [timer.h], [peci.h],
    [peci_customization.h] and of the board configuration are parameters
    of the development, and so is the one behaviour of the target that the
    code relies on and C does not define. *)
Class Platform : Type := {
  (* common.h *)
  EC_ERROR_TIMEOUT : Z;
  EC_ERROR_INVAL : Z;
  EC_ERROR_NOT_POWERED : Z;
  (* timer.h *)
  SECOND : Z;
  (* board configuration *)
  CONFIG_PECI_TJMAX : Z;
  BOARD_VERSION_7 : Z;
  (* peci.h *)
  PECI_TARGET_ADDRESS : Z;
  PECI_CMD_GET_TEMP : Z;
  PECI_CMD_RD_PKG_CFG : Z;
  PECI_CMD_WR_PKG_CFG : Z;
  PECI_GET_TEMP_READ_LENGTH : Z;
  PECI_GET_TEMP_WRITE_LENGTH : Z;
  PECI_GET_TEMP_TIMEOUT_US : Z;
  (* peci_customization.h *)
  PECI_RD_PKG_CONFIG_WRITE_LENGTH : Z;
  PECI_RD_PKG_CONFIG_TIMEOUT_US : Z;
  PECI_WR_PKG_CONFIG_READ_LENGTH : Z;
  PECI_WR_PKG_CONFIG_WRITE_LENGTH_DWORD : Z;
  PECI_WR_PKG_CONFIG_TIMEOUT_US : Z;
  PECI_INDEX_POWER_LIMITS_PL1 : Z;
  PECI_PARAMS_POWER_LIMITS_PL1 : Z;
  PECI_INDEX_POWER_LIMITS_PL2 : Z;
  PECI_PARAMS_POWER_LIMITS_PL2 : Z;
  PECI_INDEX_POWER_LIMITS_PL4 : Z;
  PECI_PARAMS_POWER_LIMITS_PL4 : Z;
  PECI_INDEX_POWER_LIMITS_PSYS_PL2 : Z;
  PECI_PARAMS_POWER_LIMITS_PSYS_PL2 : Z;
  PECI_PL1_CONTROL_TIME_WINDOWS : Z;
  PECI_PL1_POWER_LIMIT_ENABLE : Z;
  PECI_PL1_POWER_LIMIT : Z -> Z;
  PECI_PL2_CONTROL_TIME_WINDOWS : Z;
  PECI_PL2_POWER_LIMIT_ENABLE : Z;
  PECI_PL2_POWER_LIMIT : Z -> Z;
  PECI_PL4_POWER_LIMIT : Z -> Z;
  PECI_PSYS_PL2_CONTROL_TIME_WINDOWS : Z;
  PECI_PSYS_PL2_POWER_LIMIT_ENABLE : Z;
  PECI_PSYS_PL2_POWER_LIMIT : Z -> Z;
  (* the target: what [x >> s] yields on a 32-bit operand [x] for a count
     [s] of 32 or more, which C leaves undefined *)
  SHR32_WIDE : Z -> Z -> Z
}.

(** ** Requests, collaborator calls and the world *)

(** The masks [chipset_in_state] is asked about in this file. *)
Inductive chipset_state_mask : Type :=
| CHIPSET_STATE_ON
| CHIPSET_STATE_ANY_OFF
| CHIPSET_STATE_STANDBY.

(** [struct peci_data].  [w_buf] is [None] for the NULL pointer; [r_buf]
    holds the receive buffer as the caller hands it over. *)
Record peci_data : Type := mk_peci_data {
  cmd_code : Z;
  addr : Z;
  w_len : Z;
  r_len : Z;
  w_buf : option (list Z);
  r_buf : list Z;
  timeout_us : Z
}.

(** One entry of the log per call to a collaborator. *)
Inductive event : Type :=
| Call_get_time
| Call_chipset_in_state (mask : chipset_state_mask)
| Call_board_get_version
| Call_peci_transaction (peci : peci_data)
| Call_espi_oob_peci_transaction (peci : peci_data)
| Call_espi_oob_retry_receive_date (buf : list Z)
| Call_cprints (msg : String.string).

(** The statics [t] and [read_count] of [stop_read_peci_temp], what the
    collaborators answer, what an uninitialised local array holds, and the
    log.  A bus answers with a status and the bytes it delivers; the answer
    may depend on everything that happened before (the log) and on the
    request. *)
Record world : Type := mk_world {
  t_static : Z;
  read_count : Z;
  clock : Z;
  power : chipset_state_mask -> bool;
  board_version : Z;
  pin_bus : list event -> peci_data -> Z * list Z;
  oob_bus : list event -> peci_data -> Z * list Z;
  oob_retry : list event -> list Z -> list Z;
  uninit : nat -> Z;
  trace : list event
}.

Definition log (e : event) (w : world) : world :=
  mk_world (t_static w) (read_count w) (clock w) (power w) (board_version w)
           (pin_bus w) (oob_bus w) (oob_retry w) (uninit w) (trace w ++ [e]).

Definition set_t (v : Z) (w : world) : world :=
  mk_world v (read_count w) (clock w) (power w) (board_version w)
           (pin_bus w) (oob_bus w) (oob_retry w) (uninit w) (trace w).

Definition set_read_count (v : Z) (w : world) : world :=
  mk_world (t_static w) v (clock w) (power w) (board_version w)
           (pin_bus w) (oob_bus w) (oob_retry w) (uninit w) (trace w).

(** The environment moves the clock between two calls. *)
Definition set_clock (v : Z) (w : world) : world :=
  mk_world (t_static w) (read_count w) v (power w) (board_version w)
           (pin_bus w) (oob_bus w) (oob_retry w) (uninit w) (trace w).

(** ** The monad *)

Definition M (A : Type) : Type := world -> option (A * world).

Definition ret {A : Type} (a : A) : M A := fun w => Some (a, w).

Definition bind {A B : Type} (m : M A) (f : A -> M B) : M B :=
  fun w => match m w with
           | Some (a, w') => f a w'
           | None => None
           end.

Definition lift {A : Type} (o : option A) : M A :=
  fun w => match o with
           | Some a => Some (a, w)
           | None => None
           end.

Declare Scope peci_scope.
Delimit Scope peci_scope with peci.
Notation "x <- m ;; k" := (bind m (fun x => k))
  (at level 61, m at next level, right associativity) : peci_scope.
Notation "m ;;; k" := (bind m (fun _ => k))
  (at level 61, right associativity) : peci_scope.
Local Open Scope peci_scope.

(** ** Collaborators *)

Definition get_time : M Z :=
  fun w => Some (clock w, log Call_get_time w).

Definition chipset_in_state (mask : chipset_state_mask) : M bool :=
  fun w => Some (power w mask, log (Call_chipset_in_state mask) w).

Definition board_get_version : M Z :=
  fun w => Some (board_version w, log Call_board_get_version w).

Definition peci_transaction (peci : peci_data) : M (Z * list Z) :=
  fun w => let '(rv, rx) := pin_bus w (trace w) peci in
           Some ((rv, receive (r_buf peci) rx),
                 log (Call_peci_transaction peci) w).

Definition espi_oob_peci_transaction (peci : peci_data) : M (Z * list Z) :=
  fun w => let '(rv, rx) := oob_bus w (trace w) peci in
           Some ((rv, receive (r_buf peci) rx),
                 log (Call_espi_oob_peci_transaction peci) w).

Definition espi_oob_retry_receive_date (buf : list Z) : M (list Z) :=
  fun w => Some (receive buf (oob_retry w (trace w) buf),
                 log (Call_espi_oob_retry_receive_date buf) w).

Definition cprints (msg : String.string) : M unit :=
  fun w => Some (tt, log (Call_cprints msg) w).

Definition get_t : M Z := fun w => Some (t_static w, w).
Definition put_t (v : Z) : M unit := fun w => Some (tt, set_t v w).
Definition get_read_count : M Z := fun w => Some (read_count w, w).
Definition put_read_count (v : Z) : M unit :=
  fun w => Some (tt, set_read_count v w).

(** A local array declared without an initialiser. *)
Definition uninit_array (n : Z) : M (list Z) :=
  fun w => Some (map (uninit w) (seq 0 (Z.to_nat n)), w).

(** The text of the console message of line 101. *)
Local Open Scope string_scope.
Definition ESPI_GET_VALUE_TIMEOUT : String.string :=
  "ESPI GET VALUE TIMEOUT!".
Local Close Scope string_scope.

(** ** The functions of peci_customization.c *)

Section Peci.

Context {P : Platform}.

(** Lines 20-45. The caller's buffer [in] is passed in and handed back. *)
Definition peci_Rd_Pkg_Config (index parameter rlen : Z) (in_buf : list Z)
  : M (Z * list Z) :=
  let index := uint8 index in
  let parameter := uint16 parameter in
  out <- uninit_array PECI_RD_PKG_CONFIG_WRITE_LENGTH ;;
  out <- lift (store out 0 0x00) ;;
  out <- lift (store out 1 index) ;;
  out <- lift (store out 2 (Z.land parameter 0xff)) ;;
  out <- lift (store out 3 (Z.land (Z.shiftr parameter 8) 0xff)) ;;
  let peci := mk_peci_data PECI_CMD_RD_PKG_CFG PECI_TARGET_ADDRESS
                PECI_RD_PKG_CONFIG_WRITE_LENGTH rlen (Some out) in_buf
                PECI_RD_PKG_CONFIG_TIMEOUT_US in
  r <- peci_transaction peci ;;
  let '(rv, in_buf') := r in
  if negb (rv =? 0) then ret (rv, in_buf') else ret (EC_SUCCESS, in_buf').

(** [x >> s] on a [uint32_t] [x].  C defines it for counts below 32; for
    a count of 32 or more the value is the one the target yields. *)
Definition shr_uint32 (x s : Z) : Z :=
  if s <? 32 then Z.shiftr x s else SHR32_WIDE x s.

(** Lines 69-70: [for (clen = 4; clen < wlen - 1; clen++)], entered with
    the number [n] of iterations left.  From [clen = 8] on (reached when
    [wlen] is 10 or more) the count of the shift is 32 or more. *)
Fixpoint wr_payload (n : nat) (clen data : Z) (out : list Z)
  : option (list Z) :=
  match n with
  | O => Some out
  | S k =>
      match store out clen (Z.land (shr_uint32 data ((clen - 4) * 8)) 0xFF) with
      | Some out' => wr_payload k (clen + 1) data out'
      | None => None
      end
  end.

(** Lines 47-81. *)
Definition peci_Wr_Pkg_Config (index parameter data wlen : Z) : M Z :=
  let index := uint8 index in
  let parameter := uint16 parameter in
  let data := uint32 data in
  let in_buf := zeros PECI_WR_PKG_CONFIG_READ_LENGTH in
  let out := zeros PECI_WR_PKG_CONFIG_WRITE_LENGTH_DWORD in
  out <- lift (store out 0 0x00) ;;
  out <- lift (store out 1 index) ;;
  out <- lift (store out 2 (Z.land parameter 0xff)) ;;
  out <- lift (store out 3 (Z.land (Z.shiftr parameter 8) 0xff)) ;;
  out <- lift (wr_payload (Z.to_nat (wlen - 1 - 4)) 4 data out) ;;
  let peci := mk_peci_data PECI_CMD_WR_PKG_CFG PECI_TARGET_ADDRESS
                wlen PECI_WR_PKG_CONFIG_READ_LENGTH (Some out) in_buf
                PECI_WR_PKG_CONFIG_TIMEOUT_US in
  ver <- board_get_version ;;
  if ver >=? BOARD_VERSION_7 then
    espi_oob_peci_transaction peci ;;;
    ret EC_SUCCESS
  else
    r <- peci_transaction peci ;;
    let rv := fst r in
    if negb (rv =? 0) then ret rv else ret EC_SUCCESS.

(** Lines 83-122.  The cell [*cpu_temp] is passed in and handed back next
    to the status. *)
Definition peci_over_espi_get_cpu_temp (cpu_temp : Z) : M (Z * Z) :=
  let r_buf := zeros PECI_GET_TEMP_READ_LENGTH in
  let peci := mk_peci_data PECI_CMD_GET_TEMP PECI_TARGET_ADDRESS
                PECI_GET_TEMP_WRITE_LENGTH PECI_GET_TEMP_READ_LENGTH
                None r_buf PECI_GET_TEMP_TIMEOUT_US in
  r <- espi_oob_peci_transaction peci ;;
  let '(rv, r_buf) := r in
  r_buf <- (if rv =? EC_ERROR_TIMEOUT then
              cprints ESPI_GET_VALUE_TIMEOUT ;;;
              espi_oob_retry_receive_date r_buf
            else ret r_buf) ;;
  if negb (rv =? 0) then ret (rv, cpu_temp) else
  b1 <- lift (load r_buf 1) ;;
  b0 <- lift (load r_buf 0) ;;
  let cpu_temp := int32 (Z.lor (Z.shiftl b1 8) b0) in
  let cpu_temp := Z.shiftr (int32 (Z.lxor cpu_temp 0xFFFF + 1)) 6 in
  if cpu_temp >=? CONFIG_PECI_TJMAX then ret (EC_ERROR_INVAL, cpu_temp) else
  let cpu_temp := int32 (int32 (CONFIG_PECI_TJMAX - cpu_temp) + 273) in
  ret (EC_SUCCESS, cpu_temp).

(** Lines 127-145. *)
Definition peci_update_PL1 (watt : Z) : M Z :=
  on <- chipset_in_state CHIPSET_STATE_ON ;;
  if negb on then ret EC_ERROR_NOT_POWERED else
  let data := uint32 (Z.lor (Z.lor PECI_PL1_CONTROL_TIME_WINDOWS
                                   PECI_PL1_POWER_LIMIT_ENABLE)
                            (PECI_PL1_POWER_LIMIT watt)) in
  rv <- peci_Wr_Pkg_Config PECI_INDEX_POWER_LIMITS_PL1
          PECI_PARAMS_POWER_LIMITS_PL1 data
          PECI_WR_PKG_CONFIG_WRITE_LENGTH_DWORD ;;
  if negb (rv =? 0) then ret rv else ret EC_SUCCESS.

(** Lines 147-165. *)
Definition peci_update_PL2 (watt : Z) : M Z :=
  on <- chipset_in_state CHIPSET_STATE_ON ;;
  if negb on then ret EC_ERROR_NOT_POWERED else
  let data := uint32 (Z.lor (Z.lor PECI_PL2_CONTROL_TIME_WINDOWS
                                   PECI_PL2_POWER_LIMIT_ENABLE)
                            (PECI_PL2_POWER_LIMIT watt)) in
  rv <- peci_Wr_Pkg_Config PECI_INDEX_POWER_LIMITS_PL2
          PECI_PARAMS_POWER_LIMITS_PL2 data
          PECI_WR_PKG_CONFIG_WRITE_LENGTH_DWORD ;;
  if negb (rv =? 0) then ret rv else ret EC_SUCCESS.

(** Lines 167-184. *)
Definition peci_update_PL4 (watt : Z) : M Z :=
  on <- chipset_in_state CHIPSET_STATE_ON ;;
  if negb on then ret EC_ERROR_NOT_POWERED else
  let data := uint32 (PECI_PL4_POWER_LIMIT watt) in
  rv <- peci_Wr_Pkg_Config PECI_INDEX_POWER_LIMITS_PL4
          PECI_PARAMS_POWER_LIMITS_PL4 data
          PECI_WR_PKG_CONFIG_WRITE_LENGTH_DWORD ;;
  if negb (rv =? 0) then ret rv else ret EC_SUCCESS.

(** Lines 186-204. *)
Definition peci_update_PsysPL2 (watt : Z) : M Z :=
  on <- chipset_in_state CHIPSET_STATE_ON ;;
  if negb on then ret EC_ERROR_NOT_POWERED else
  let data := uint32 (Z.lor (Z.lor PECI_PSYS_PL2_CONTROL_TIME_WINDOWS
                                   PECI_PSYS_PL2_POWER_LIMIT_ENABLE)
                            (PECI_PSYS_PL2_POWER_LIMIT watt)) in
  rv <- peci_Wr_Pkg_Config PECI_INDEX_POWER_LIMITS_PSYS_PL2
          PECI_PARAMS_POWER_LIMITS_PSYS_PL2 data
          PECI_WR_PKG_CONFIG_WRITE_LENGTH_DWORD ;;
  if negb (rv =? 0) then ret rv else ret EC_SUCCESS.

(** Lines 206-236.  [++read_count] is the increment of an [int]. *)
Definition stop_read_peci_temp : M Z :=
  tnow <- get_time ;;
  off <- chipset_in_state CHIPSET_STATE_ANY_OFF ;;
  if off then ret EC_ERROR_NOT_POWERED else
  standby <- chipset_in_state CHIPSET_STATE_STANDBY ;;
  if standby then
    t <- get_t ;;
    if uint64 (tnow - t) <? 7 * SECOND then ret EC_ERROR_NOT_POWERED else
    n <- get_read_count ;;
    put_read_count (int32 (n + 1)) ;;;
    if int32 (n + 1) >? 3 then
      put_read_count 0 ;;;
      put_t tnow ;;;
      ret EC_ERROR_NOT_POWERED
    else ret EC_SUCCESS
  else
    put_read_count 0 ;;;
    put_t tnow ;;;
    ret EC_SUCCESS.

(** Lines 251-255: [for (i = 0; i < 2; i++)], entered with the number [n]
    of iterations left; [rv] and [*temp_ptr] are carried along. *)
Fixpoint get_val_loop (n : nat) (rv temp : Z) : M (Z * Z) :=
  match n with
  | O => ret (rv, temp)
  | S k =>
      r <- peci_over_espi_get_cpu_temp temp ;;
      let '(rv', temp') := r in
      if rv' =? 0 then ret (rv', temp') else get_val_loop k rv' temp'
  end.

(** Lines 238-258. *)
Definition peci_over_espi_temp_sensor_get_val (idx temp : Z) : M (Z * Z) :=
  rv <- stop_read_peci_temp ;;
  if negb (rv =? EC_SUCCESS) then ret (rv, temp) else
  get_val_loop 2 rv temp.

End Peci.

(** ** Definitions the statements are written with *)

(** Little-endian serialisation of a number into [n] bytes, and the frame
    of a write-package-config request as the specification words it: host
    identifier, index, low and high byte of the parameter, the payload, and
    the rest of the buffer as initialised.  These two follow the
    specification; the theorems compare them with what the code builds. *)
Fixpoint le_serialize (n : nat) (d : Z) : list Z :=
  match n with
  | O => []
  | S k => d mod 256 :: le_serialize k (d / 256)
  end.

Definition wr_frame (size index parameter data wlen : Z) : list Z :=
  [0; index; parameter mod 256; parameter / 256 mod 256]
    ++ le_serialize (Z.to_nat (wlen - 5)) data
    ++ repeat 0 (Z.to_nat size - 4 - Z.to_nat (wlen - 5)).

(** The payload byte number [j] as line 70 computes it, and the frame the
    code builds in [out]: the header, the payload bytes, the rest of the
    array as initialised. *)
Definition payload_byte {P : Platform} (data : Z) (j : nat) : Z :=
  Z.land (shr_uint32 data (8 * Z.of_nat j)) 0xFF.

Definition wr_out {P : Platform} (size index parameter data wlen : Z)
  : list Z :=
  [0; index; parameter mod 256; parameter / 256 mod 256]
    ++ map (payload_byte data) (seq 0 (Z.to_nat (wlen - 5)))
    ++ repeat 0 (Z.to_nat size - 4 - Z.to_nat (wlen - 5)).

(** What the C code determines of a frame [out] of [size] bytes written
    for the length [wlen]: the four header bytes, the payload bytes that
    hold the four bytes of [data] (offsets 4 to 7 at most), and the zeros
    after the last byte written.  Payload bytes from offset 8 on are left
    open. *)
Definition frame_as_written (size index parameter data wlen : Z)
  (out : list Z) : Prop :=
  length out = Z.to_nat size /\
  firstn 4 out = [0; index; parameter mod 256; parameter / 256 mod 256] /\
  (forall j : nat,
      (j < Z.to_nat (wlen - 5))%nat -> (j < 4)%nat ->
      nth_error out (4 + j) = Some (data / 2 ^ (8 * Z.of_nat j) mod 256)) /\
  (forall k : nat,
      (4 + Z.to_nat (wlen - 5) <= k < Z.to_nat size)%nat ->
      nth_error out k = Some 0).

(** Observers of the log. *)
Definition is_pin (e : event) : bool :=
  match e with Call_peci_transaction _ => true | _ => false end.

Definition is_oob (e : event) : bool :=
  match e with Call_espi_oob_peci_transaction _ => true | _ => false end.

Definition is_transaction (e : event) : bool := is_pin e || is_oob e.

Definition is_get_time (e : event) : bool :=
  match e with Call_get_time => true | _ => false end.

Definition is_version (e : event) : bool :=
  match e with Call_board_get_version => true | _ => false end.

Definition count (f : event -> bool) (tr : list event) : nat :=
  length (filter f tr).

(** Calls that are neither a transaction nor a reading of the clock or of
    the board revision. *)
Definition quiet (tr : list event) : Prop :=
  filter is_transaction tr = [] /\ filter is_get_time tr = [] /\
  filter is_version tr = [].

(** The three queries one call of [stop_read_peci_temp] makes when the
    chipset is not off. *)
Definition throttle_log (w : world) : world :=
  log (Call_chipset_in_state CHIPSET_STATE_STANDBY)
    (log (Call_chipset_in_state CHIPSET_STATE_ANY_OFF)
       (log Call_get_time w)).

Section Requests.

Context {P : Platform}.

(** The request of line 88-96. *)
Definition get_temp_request : peci_data :=
  mk_peci_data PECI_CMD_GET_TEMP PECI_TARGET_ADDRESS
    PECI_GET_TEMP_WRITE_LENGTH PECI_GET_TEMP_READ_LENGTH
    None (zeros PECI_GET_TEMP_READ_LENGTH) PECI_GET_TEMP_TIMEOUT_US.

(** The request of lines 54-62 around a frame [out]. *)
Definition wr_request (wlen : Z) (out : list Z) : peci_data :=
  mk_peci_data PECI_CMD_WR_PKG_CFG PECI_TARGET_ADDRESS
    wlen PECI_WR_PKG_CONFIG_READ_LENGTH (Some out)
    (zeros PECI_WR_PKG_CONFIG_READ_LENGTH) PECI_WR_PKG_CONFIG_TIMEOUT_US.

(** The request of lines 25-33 around a frame [out] and a buffer [in_buf]. *)
Definition rd_request (rlen : Z) (out in_buf : list Z) : peci_data :=
  mk_peci_data PECI_CMD_RD_PKG_CFG PECI_TARGET_ADDRESS
    PECI_RD_PKG_CONFIG_WRITE_LENGTH rlen (Some out) in_buf
    PECI_RD_PKG_CONFIG_TIMEOUT_US.

(** A power-limit setter [f] refuses when the chipset is not on: it hands
    back [EC_ERROR_NOT_POWERED] and has called nothing but
    [chipset_in_state]. *)
Definition setter_refuses (f : Z -> M Z) : Prop :=
  forall (watt : Z) (w : world),
    power w CHIPSET_STATE_ON = false ->
    f watt w
    = Some (EC_ERROR_NOT_POWERED,
            log (Call_chipset_in_state CHIPSET_STATE_ON) w).

(** A power-limit setter [f] writes when the chipset is on: one
    write-package-config transaction of double-word length, on the bus the
    board revision selects, whose frame [out] carries [index], [parameter]
    and the bytes of the 32-bit word [word watt] ([frame_as_written]); a
    failure of the pin bus is handed back, anything else is a success. *)
Definition setter_writes (f : Z -> M Z) (index parameter : Z)
  (word : Z -> Z) : Prop :=
  forall (watt : Z) (w : world),
    power w CHIPSET_STATE_ON = true ->
    4 <= PECI_WR_PKG_CONFIG_WRITE_LENGTH_DWORD ->
    let w1 := log Call_board_get_version
                (log (Call_chipset_in_state CHIPSET_STATE_ON) w) in
    exists out : list Z,
      frame_as_written PECI_WR_PKG_CONFIG_WRITE_LENGTH_DWORD
        (uint8 index) (uint16 parameter) (uint32 (word watt))
        PECI_WR_PKG_CONFIG_WRITE_LENGTH_DWORD out /\
      let req := wr_request PECI_WR_PKG_CONFIG_WRITE_LENGTH_DWORD out in
      f watt w
      = if board_version w >=? BOARD_VERSION_7 then
          Some (EC_SUCCESS, log (Call_espi_oob_peci_transaction req) w1)
        else
          Some (let rv := fst (pin_bus w (trace w1) req) in
                if rv =? 0 then EC_SUCCESS else rv,
                log (Call_peci_transaction req) w1).

(** The wording of the frame that is put to the test below: the call
    returns and the frame it sends is the header followed by the
    [wlen - 5] bytes of the little-endian serialisation of [data]. *)
Definition sends_serialized_frame (w : world) (index parameter data wlen : Z)
  : Prop :=
  exists (rv : Z) (w' : world),
    peci_Wr_Pkg_Config index parameter data wlen w = Some (rv, w') /\
    trace w'
    = trace w
      ++ [Call_board_get_version;
          (if board_version w >=? BOARD_VERSION_7
           then Call_espi_oob_peci_transaction
           else Call_peci_transaction)
            (wr_request wlen
               (wr_frame PECI_WR_PKG_CONFIG_WRITE_LENGTH_DWORD
                  index parameter data wlen))].

(** The reading of the throttle that is put to the test below: in standby,
    a call at or after 7 seconds from the stored window start is let
    through and leaves the counter at zero. *)
Definition accepts_and_resets (w : world) : Prop :=
  power w CHIPSET_STATE_ANY_OFF = false ->
  power w CHIPSET_STATE_STANDBY = true ->
  0 <= t_static w <= clock w ->
  clock w < 2 ^ 64 ->
  7 * SECOND <= clock w - t_static w ->
  exists w',
    stop_read_peci_temp w = Some (EC_SUCCESS, w') /\ read_count w' = 0.

(** The throttle is in its standby branch. *)
Definition in_standby (w : world) : Prop :=
  power w CHIPSET_STATE_ANY_OFF = false /\
  power w CHIPSET_STATE_STANDBY = true.

(** Successive calls of [stop_read_peci_temp], the clock reading [tn] at
    each: the list of the statuses and the world at the end. *)
Fixpoint throttle_calls (times : list Z) (w : world)
  : option (list Z * world) :=
  match times with
  | [] => Some ([], w)
  | tn :: rest =>
      match stop_read_peci_temp (set_clock tn w) with
      | Some (rv, w') =>
          match throttle_calls rest w' with
          | Some (rvs, w'') => Some (rv :: rvs, w'')
          | None => None
          end
      | None => None
      end
  end.

End Requests.

(** A platform and a world to run the definitions on.  The values stand
    for those of the headers, which are not among the sources at hand; a
    shift by 32 or more takes the count modulo 32, as x86 does. *)
Definition demo_platform : Platform := {|
  EC_ERROR_TIMEOUT := 4;
  EC_ERROR_INVAL := 5;
  EC_ERROR_NOT_POWERED := 8;
  SECOND := 1000000;
  CONFIG_PECI_TJMAX := 100;
  BOARD_VERSION_7 := 7;
  PECI_TARGET_ADDRESS := 0x30;
  PECI_CMD_GET_TEMP := 0x01;
  PECI_CMD_RD_PKG_CFG := 0xA1;
  PECI_CMD_WR_PKG_CFG := 0xA5;
  PECI_GET_TEMP_READ_LENGTH := 2;
  PECI_GET_TEMP_WRITE_LENGTH := 0;
  PECI_GET_TEMP_TIMEOUT_US := 200;
  PECI_RD_PKG_CONFIG_WRITE_LENGTH := 5;
  PECI_RD_PKG_CONFIG_TIMEOUT_US := 200;
  PECI_WR_PKG_CONFIG_READ_LENGTH := 1;
  PECI_WR_PKG_CONFIG_WRITE_LENGTH_DWORD := 10;
  PECI_WR_PKG_CONFIG_TIMEOUT_US := 200;
  PECI_INDEX_POWER_LIMITS_PL1 := 0x1A;
  PECI_PARAMS_POWER_LIMITS_PL1 := 0;
  PECI_INDEX_POWER_LIMITS_PL2 := 0x1B;
  PECI_PARAMS_POWER_LIMITS_PL2 := 0;
  PECI_INDEX_POWER_LIMITS_PL4 := 0x3C;
  PECI_PARAMS_POWER_LIMITS_PL4 := 0;
  PECI_INDEX_POWER_LIMITS_PSYS_PL2 := 0x3B;
  PECI_PARAMS_POWER_LIMITS_PSYS_PL2 := 0;
  PECI_PL1_CONTROL_TIME_WINDOWS := Z.shiftl 0xDC 16;
  PECI_PL1_POWER_LIMIT_ENABLE := Z.shiftl 1 15;
  PECI_PL1_POWER_LIMIT := fun x => Z.shiftl x 3;
  PECI_PL2_CONTROL_TIME_WINDOWS := Z.shiftl 0x40 16;
  PECI_PL2_POWER_LIMIT_ENABLE := Z.shiftl 1 15;
  PECI_PL2_POWER_LIMIT := fun x => Z.shiftl x 3;
  PECI_PL4_POWER_LIMIT := fun x => Z.shiftl x 3;
  PECI_PSYS_PL2_CONTROL_TIME_WINDOWS := Z.shiftl 0x40 16;
  PECI_PSYS_PL2_POWER_LIMIT_ENABLE := Z.shiftl 1 15;
  PECI_PSYS_PL2_POWER_LIMIT := fun x => Z.shiftl x 3;
  SHR32_WIDE := fun x s => Z.shiftr x (s mod 32)
|}.

(** A world whose out-of-band bus answers every request with status [rv]
    and the bytes [rx], whose pin bus answers with status [pin_rv], in the
    power state [pw], on board revision [ver], at clock [now], with the
    statics [t] and [n]. *)
Definition demo_world (pw : chipset_state_mask -> bool) (ver now t n : Z)
  (pin_rv rv : Z) (rx : list Z) : world :=
  mk_world t n now pw ver
    (fun _ _ => (pin_rv, []))
    (fun _ _ => (rv, rx))
    (fun _ buf => buf)
    (fun _ => 0xAA)
    [].

Definition power_on (m : chipset_state_mask) : bool :=
  match m with CHIPSET_STATE_ON => true | _ => false end.

Definition power_standby (m : chipset_state_mask) : bool :=
  match m with CHIPSET_STATE_STANDBY => true | _ => false end.

Definition power_off (m : chipset_state_mask) : bool :=
  match m with CHIPSET_STATE_ANY_OFF => true | _ => false end.

(** ** Definitions for the further properties *)

From Stdlib Require Import Sorted.

(** The environment changes the power state between two calls. *)
Definition set_power (pw : chipset_state_mask -> bool) (w : world) : world :=
  mk_world (t_static w) (read_count w) (clock w) pw (board_version w)
           (pin_bus w) (oob_bus w) (oob_retry w) (uninit w) (trace w).

(** A value a [uint8_t] can hold. *)
Definition is_byte (b : Z) : Prop := 0 <= b < 256.

(** The number a little-endian byte sequence stands for. *)
Fixpoint le_combine (l : list Z) : Z :=
  match l with
  | [] => 0
  | b :: rest => b + 256 * le_combine rest
  end.

(** The standby branch of [stop_read_peci_temp] (lines 217-228) read as a
    transition on the pair of statics [(t, read_count)]: whether the call
    at clock [tn] is let through, and the statics it leaves.  [window]
    stands for [7 * SECOND].  The theorems relate it to the code. *)
Definition standby_step (window : Z) (s : Z * Z) (tn : Z) : bool * (Z * Z) :=
  let '(t, n) := s in
  if tn - t <? window then (false, (t, n))
  else if n <? 3 then (true, (t, n + 1))
  else (false, (tn, 0)).

Fixpoint standby_run (window : Z) (s : Z * Z) (times : list Z) : list bool :=
  match times with
  | [] => []
  | tn :: rest =>
      let '(a, s') := standby_step window s tn in
      a :: standby_run window s' rest
  end.

(** The number of calls let through. *)
Definition trues (l : list bool) : nat := length (filter (fun a => a) l).

Section Schedules.

Context {P : Platform}.

Definition status_of (a : bool) : Z :=
  if a then EC_SUCCESS else EC_ERROR_NOT_POWERED.

(** The statuses among [rvs] that are [EC_SUCCESS]. *)
Definition accepts (rvs : list Z) : nat :=
  length (filter (fun rv => rv =? EC_SUCCESS) rvs).

(** Successive calls of [stop_read_peci_temp], the environment setting the
    power state and the clock before each. *)
Fixpoint throttle_schedule
  (calls : list ((chipset_state_mask -> bool) * Z)) (w : world)
  : option (list Z * world) :=
  match calls with
  | [] => Some ([], w)
  | (pw, tn) :: rest =>
      match stop_read_peci_temp (set_clock tn (set_power pw w)) with
      | Some (rv, w') =>
          match throttle_schedule rest w' with
          | Some (rvs, w'') => Some (rv :: rvs, w'')
          | None => None
          end
      | None => None
      end
  end.

End Schedules.

(** A world as [demo_world], on revision 7 with the chipset on, whose
    out-of-band bus answers its first transaction with [rv1] and [rx1] and
    every later one with [rv2] and [rx2]. *)
Definition demo_world_retry (rv1 : Z) (rx1 : list Z) (rv2 : Z) (rx2 : list Z)
  : world :=
  mk_world 0 0 0 power_on 7
    (fun _ _ => (0, []))
    (fun tr _ => if (count is_oob tr =? 0)%nat then (rv1, rx1) else (rv2, rx2))
    (fun _ buf => buf)
    (fun _ => 0xAA)
    [].

(** Projections of a world the environment has updated. *)
Ltac env_proj :=
  cbn [log set_t set_read_count set_clock set_power throttle_log
       power t_static read_count clock trace oob_bus pin_bus].

(** Projections of an updated world. *)
Ltac world_proj :=
  cbn [log set_t set_read_count set_clock throttle_log
       power t_static read_count clock trace].

(** * Theorems *)

(** ** Arithmetic of the raw reading *)

Lemma int32_small (x : Z) : - 2 ^ 31 <= x < 2 ^ 31 -> int32 x = x.
Proof.
  intros H. unfold int32.
  rewrite Z.mod_small by lia. lia.
Qed.

Lemma uint32_idem (x : Z) : uint32 (uint32 x) = uint32 x.
Proof. unfold uint32. apply Z.mod_mod. lia. Qed.

Lemma raw_no_carry (b0 b1 : Z) :
  0 <= b0 < 256 -> 0 <= b1 -> Z.land (Z.shiftl b1 8) b0 = 0.
Proof.
  intros H0 H1. apply Z.bits_inj'. intros n Hn.
  rewrite Z.land_spec, Z.bits_0.
  destruct (Z.ltb_spec n 8) as [Hlt | Hge].
  - rewrite Z.shiftl_spec_low by lia. reflexivity.
  - replace (Z.testbit b0 n) with false; [apply andb_false_r |].
    symmetry. destruct (Z.eq_dec b0 0) as [-> | Hnz]; [apply Z.bits_0 |].
    apply Z.bits_above_log2; [lia |].
    apply Z.log2_lt_pow2; [lia |].
    apply Z.lt_le_trans with (2 ^ 8); [lia |].
    apply Z.pow_le_mono_r; lia.
Qed.

Lemma raw_value (b0 b1 : Z) :
  0 <= b0 < 256 -> 0 <= b1 < 256 ->
  Z.lor (Z.shiftl b1 8) b0 = b0 + 256 * b1.
Proof.
  intros H0 H1.
  rewrite <- Z.lxor_lor by (apply raw_no_carry; lia).
  rewrite <- Z.add_nocarry_lxor by (apply raw_no_carry; lia).
  rewrite Z.shiftl_mul_pow2 by lia. lia.
Qed.

Lemma complement16 (v : Z) :
  0 <= v < 65536 -> Z.lxor v 0xFFFF = 65535 - v.
Proof.
  intros Hv.
  assert (Hnc : Z.land (Z.lxor v 0xFFFF) v = 0).
  { apply Z.bits_inj'. intros n Hn.
    rewrite Z.land_spec, Z.lxor_spec, Z.bits_0.
    destruct (Z.ltb_spec n 16) as [Hlt | Hge].
    - change 0xFFFF with (Z.ones 16).
      rewrite Z.ones_spec_low by lia.
      destruct (Z.testbit v n); reflexivity.
    - replace (Z.testbit v n) with false; [apply andb_false_r |].
      symmetry. destruct (Z.eq_dec v 0) as [-> | Hnz]; [apply Z.bits_0 |].
      apply Z.bits_above_log2; [lia |].
      apply Z.log2_lt_pow2; [lia |].
      apply Z.lt_le_trans with (2 ^ 16); [lia |].
      apply Z.pow_le_mono_r; lia. }
  apply Z.add_nocarry_lxor in Hnc.
  assert (Hx : Z.lxor (Z.lxor v 0xFFFF) v = 65535).
  { rewrite (Z.lxor_comm v 0xFFFF), Z.lxor_assoc, Z.lxor_nilpotent.
    apply Z.lxor_0_r. }
  lia.
Qed.

(** The offset the code derives from the two bytes of a reading. *)
Lemma offset_value (b0 b1 : Z) :
  0 <= b0 < 256 -> 0 <= b1 < 256 ->
  let v := Z.lor b0 (Z.shiftl b1 8) in
  0 <= v < 65536 /\
  Z.shiftr (int32 (Z.lxor (int32 (Z.lor (Z.shiftl b1 8) b0)) 0xFFFF + 1)) 6
    = Z.shiftr (Z.lxor v 0xFFFF + 1) 6 /\
  Z.shiftr (Z.lxor v 0xFFFF + 1) 6 = (65536 - v) / 64 /\
  0 <= Z.shiftr (Z.lxor v 0xFFFF + 1) 6 <= 1024.
Proof.
  intros H0 H1 v.
  assert (Hv : v = b0 + 256 * b1).
  { unfold v. rewrite Z.lor_comm. apply raw_value; lia. }
  assert (Hr : 0 <= v < 65536) by lia.
  assert (Hc : Z.lxor v 0xFFFF = 65535 - v) by (apply complement16; lia).
  rewrite (Z.lor_comm (Z.shiftl b1 8) b0). fold v.
  rewrite (int32_small v) by lia.
  rewrite Hc.
  rewrite int32_small by lia.
  rewrite Z.shiftr_div_pow2 by lia.
  replace (65535 - v + 1) with (65536 - v) by lia.
  change (2 ^ 6) with 64.
  repeat split; try lia.
  - apply Z.div_pos; lia.
  - apply Z.div_le_upper_bound; lia.
Qed.

(** ** Arrays *)

Lemma fit_length (n : nat) (rx : list Z) : length (fit n rx) = n.
Proof.
  unfold fit. rewrite length_firstn, length_app, repeat_length. lia.
Qed.

Lemma load_fit_0 (n : nat) (b0 : Z) (rest : list Z) :
  (1 <= n)%nat -> load (fit n (b0 :: rest)) 0 = Some b0.
Proof.
  intros H. destruct n as [| n]; [lia |]. reflexivity.
Qed.

Lemma load_fit_1 (n : nat) (b0 b1 : Z) (rest : list Z) :
  (2 <= n)%nat -> load (fit n (b0 :: b1 :: rest)) 1 = Some b1.
Proof.
  intros H. destruct n as [| [| n]]; try lia. reflexivity.
Qed.

Lemma load_defined (a : list Z) (i : Z) :
  0 <= i < Z.of_nat (length a) -> exists v, load a i = Some v.
Proof.
  intros H. unfold load.
  destruct (Z.ltb_spec i 0) as [Hlt | Hge]; [lia |].
  destruct (nth_error a (Z.to_nat i)) as [v |] eqn:E; [eauto |].
  apply nth_error_None in E. lia.
Qed.

Lemma store_app (pre post : list Z) (x v : Z) :
  store (pre ++ x :: post) (Z.of_nat (length pre)) v = Some (pre ++ v :: post).
Proof.
  unfold store.
  destruct (Z.ltb_spec (Z.of_nat (length pre)) 0) as [Hlt | _]; [lia |].
  rewrite Nat2Z.id.
  induction pre as [| y pre IH]; simpl; [reflexivity |].
  rewrite IH. reflexivity.
Qed.

Lemma store_0 (x v : Z) (rest : list Z) :
  store (x :: rest) 0 v = Some (v :: rest).
Proof. reflexivity. Qed.

Lemma store_1 (x0 x v : Z) (rest : list Z) :
  store (x0 :: x :: rest) 1 v = Some (x0 :: v :: rest).
Proof. reflexivity. Qed.

Lemma store_2 (x0 x1 x v : Z) (rest : list Z) :
  store (x0 :: x1 :: x :: rest) 2 v = Some (x0 :: x1 :: v :: rest).
Proof. reflexivity. Qed.

Lemma store_3 (x0 x1 x2 x v : Z) (rest : list Z) :
  store (x0 :: x1 :: x2 :: x :: rest) 3 v = Some (x0 :: x1 :: x2 :: v :: rest).
Proof. reflexivity. Qed.

Lemma receive_length (buf rx : list Z) : length (receive buf rx) = length buf.
Proof.
  unfold receive. rewrite length_firstn, length_app, length_skipn. lia.
Qed.

Lemma firstn_zero_padding (rx : list Z) :
  forall n a b : nat,
    (n - length rx <= a)%nat -> (n - length rx <= b)%nat ->
    firstn n (rx ++ repeat 0 a) = firstn n (rx ++ repeat 0 b).
Proof.
  induction rx as [| x rx IH]; intros n a b Ha Hb.
  - cbn [app length] in *. rewrite Nat.sub_0_r in Ha, Hb.
    revert a b Ha Hb. induction n as [| n IHn]; intros a b Ha Hb;
      [reflexivity |].
    destruct a as [| a]; [lia |]. destruct b as [| b]; [lia |].
    cbn [repeat firstn]. rewrite (IHn a b) by lia. reflexivity.
  - destruct n as [| n]; [reflexivity |].
    cbn [app firstn length Nat.sub] in *.
    rewrite (IH n a b) by lia. reflexivity.
Qed.

Lemma skipn_zeros (k n : nat) : skipn k (repeat 0 n) = repeat 0 (n - k).
Proof.
  revert n. induction k as [| k IH]; intros n.
  - rewrite Nat.sub_0_r. reflexivity.
  - destruct n as [| n]; [reflexivity |].
    cbn [repeat skipn Nat.sub]. apply IH.
Qed.

(** Into a buffer of zeros, [receive] is [fit]. *)
Lemma receive_zeros (n : Z) (rx : list Z) :
  receive (zeros n) rx = fit (Z.to_nat n) rx.
Proof.
  unfold receive, fit, zeros.
  rewrite repeat_length, skipn_zeros.
  apply firstn_zero_padding; lia.
Qed.

(** ** The temperature reading *)

Section Temperature.

Context {P : Platform}.

Lemma zeros_length (n : Z) : length (zeros n) = Z.to_nat n.
Proof. apply repeat_length. Qed.

Lemma receive_get_temp (rx : list Z) :
  receive (r_buf get_temp_request) rx
  = fit (Z.to_nat PECI_GET_TEMP_READ_LENGTH) rx.
Proof. unfold get_temp_request. cbn [r_buf]. apply receive_zeros. Qed.

(** What one reading does once the bus has answered with success and the
    two bytes [b0], [b1]. *)
Lemma get_cpu_temp_converts (w : world) (cpu_temp b0 b1 : Z) (rest : list Z) :
  EC_ERROR_TIMEOUT <> EC_SUCCESS ->
  2 <= PECI_GET_TEMP_READ_LENGTH ->
  0 <= b0 < 256 -> 0 <= b1 < 256 ->
  oob_bus w (trace w) get_temp_request = (0, b0 :: b1 :: rest) ->
  let o := Z.shiftr (Z.lxor (Z.lor b0 (Z.shiftl b1 8)) 0xFFFF + 1) 6 in
  peci_over_espi_get_cpu_temp cpu_temp w =
    Some (if o >=? CONFIG_PECI_TJMAX then (EC_ERROR_INVAL, o)
          else (EC_SUCCESS, int32 (int32 (CONFIG_PECI_TJMAX - o) + 273)),
          log (Call_espi_oob_peci_transaction get_temp_request) w).
Proof.
  intros Hto Hlen H0 H1 Hbus o.
  unfold peci_over_espi_get_cpu_temp, bind, espi_oob_peci_transaction.
  fold get_temp_request. rewrite Hbus.
  assert (E : (0 =? EC_ERROR_TIMEOUT) = false)
    by (apply Z.eqb_neq; unfold EC_SUCCESS in Hto; congruence).
  rewrite E. cbn [ret negb Z.eqb].
  unfold lift. rewrite receive_get_temp.
  rewrite load_fit_1, load_fit_0 by lia.
  destruct (offset_value b0 b1 H0 H1) as (_ & Ho & _).
  rewrite Ho. fold o.
  destruct (o >=? CONFIG_PECI_TJMAX); reflexivity.
Qed.

(** What one reading does when the bus answers with a failure. *)
Lemma get_cpu_temp_bus_failure (w : world) (cpu_temp rv : Z) (rx : list Z) :
  rv <> 0 ->
  oob_bus w (trace w) get_temp_request = (rv, rx) ->
  exists w',
    peci_over_espi_get_cpu_temp cpu_temp w = Some ((rv, cpu_temp), w') /\
    t_static w' = t_static w /\ read_count w' = read_count w /\
    exists extra,
      trace w' = trace w
                 ++ Call_espi_oob_peci_transaction get_temp_request :: extra /\
      quiet extra.
Proof.
  intros Hrv Hbus.
  unfold peci_over_espi_get_cpu_temp, bind, espi_oob_peci_transaction.
  fold get_temp_request. rewrite Hbus.
  assert (E : negb (rv =? 0) = true)
    by (apply negb_true_iff, Z.eqb_neq; exact Hrv).
  destruct (rv =? EC_ERROR_TIMEOUT).
  - unfold cprints, espi_oob_retry_receive_date. cbn [ret]. rewrite E.
    eexists; split; [reflexivity |].
    cbn [log t_static read_count trace].
    repeat split.
    eexists; split; [rewrite <- !app_assoc; reflexivity |].
    repeat split.
  - cbn [ret]. rewrite E.
    eexists; split; [reflexivity |].
    cbn [log t_static read_count trace].
    repeat split.
    exists []. repeat split.
Qed.

(** One reading always returns, makes exactly one transaction, on the
    out-of-band bus, reads neither the clock nor the board revision, and
    leaves the statics of the throttle alone. *)
Lemma get_cpu_temp_total (w : world) (cpu_temp : Z) :
  2 <= PECI_GET_TEMP_READ_LENGTH ->
  exists rv c w',
    peci_over_espi_get_cpu_temp cpu_temp w = Some ((rv, c), w') /\
    t_static w' = t_static w /\ read_count w' = read_count w /\
    exists extra,
      trace w' = trace w
                 ++ Call_espi_oob_peci_transaction get_temp_request :: extra /\
      quiet extra.
Proof.
  intros Hlen.
  destruct (oob_bus w (trace w) get_temp_request) as [rv rx] eqn:Hbus.
  destruct (Z.eq_dec rv 0) as [-> | Hrv].
  2: { destruct (get_cpu_temp_bus_failure w cpu_temp rv rx Hrv Hbus)
         as (w' & H); eauto. }
  unfold peci_over_espi_get_cpu_temp, bind, espi_oob_peci_transaction.
  fold get_temp_request. rewrite Hbus.
  set (buf := receive (r_buf get_temp_request) rx).
  assert (Hbuf : length buf = Z.to_nat PECI_GET_TEMP_READ_LENGTH).
  { unfold buf. rewrite receive_length. unfold get_temp_request. cbn [r_buf].
    apply zeros_length. }
  destruct (0 =? EC_ERROR_TIMEOUT).
  - unfold cprints, espi_oob_retry_receive_date. cbn [ret negb Z.eqb].
    set (buf' := receive buf _).
    assert (Hbuf' : length buf' = Z.to_nat PECI_GET_TEMP_READ_LENGTH)
      by (unfold buf'; rewrite receive_length; exact Hbuf).
    destruct (load_defined buf' 1) as [b1 E1]; [lia |].
    destruct (load_defined buf' 0) as [b0 E0]; [lia |].
    unfold lift. rewrite E1, E0.
    match goal with |- context [if ?c then _ else _] => destruct c end;
      do 3 eexists; (split; [reflexivity |]);
      cbn [log t_static read_count trace]; repeat split;
      (eexists; split; [rewrite <- !app_assoc; reflexivity |]);
      repeat split.
  - cbn [ret negb Z.eqb].
    destruct (load_defined buf 1) as [b1 E1]; [lia |].
    destruct (load_defined buf 0) as [b0 E0]; [lia |].
    unfold lift. rewrite E1, E0.
    match goal with |- context [if ?c then _ else _] => destruct c end;
      do 3 eexists; (split; [reflexivity |]);
      cbn [log t_static read_count trace]; repeat split;
      exists []; repeat split.
Qed.

End Temperature.

(** ** The frame of a write-package-config request *)

Lemma low_byte (x : Z) : Z.land x 0xff = x mod 256.
Proof. change 0xff with (Z.ones 8). apply Z.land_ones. lia. Qed.

Lemma shifted_byte (x s : Z) :
  0 <= s -> Z.land (Z.shiftr x s) 0xFF = x / 2 ^ s mod 256.
Proof.
  intros Hs. rewrite low_byte, Z.shiftr_div_pow2 by lia. reflexivity.
Qed.

Lemma le_serialize_length (n : nat) (d : Z) : length (le_serialize n d) = n.
Proof.
  revert d. induction n as [| n IH]; intros d; cbn [le_serialize length];
    [reflexivity | rewrite IH; reflexivity].
Qed.

Lemma le_serialize_nth (n : nat) :
  forall (d : Z) (j : nat),
    (j < n)%nat ->
    nth_error (le_serialize n d) j
    = Some (Z.land (Z.shiftr d (8 * Z.of_nat j)) 0xFF).
Proof.
  induction n as [| n IH]; intros d j Hj; [lia |].
  destruct j as [| j]; cbn [le_serialize nth_error].
  - rewrite shifted_byte by lia. cbn [Z.of_nat Z.mul].
    rewrite Z.pow_0_r, Z.div_1_r. reflexivity.
  - rewrite IH by lia. rewrite !shifted_byte by lia.
    replace (8 * Z.of_nat (S j)) with (8 + 8 * Z.of_nat j) by lia.
    rewrite Z.pow_add_r by lia. rewrite Z.div_div by lia. reflexivity.
Qed.

Section WritePackageConfig.

Context {P : Platform}.

(** A payload byte below the fourth is a byte of the data word. *)
Lemma payload_byte_low (data : Z) (j : nat) :
  (j < 4)%nat -> payload_byte data j = data / 2 ^ (8 * Z.of_nat j) mod 256.
Proof.
  intros Hj. unfold payload_byte, shr_uint32.
  replace (8 * Z.of_nat j <? 32) with true
    by (symmetry; apply Z.ltb_lt; lia).
  apply shifted_byte. lia.
Qed.

(** Up to four payload bytes are the little-endian serialisation. *)
Lemma payload_serialized (data : Z) (n : nat) :
  forall k : nat,
    (k + n <= 4)%nat ->
    map (payload_byte data) (seq k n)
    = le_serialize n (data / 2 ^ (8 * Z.of_nat k)).
Proof.
  induction n as [| n IH]; intros k Hk; [reflexivity |].
  cbn [seq map le_serialize].
  rewrite payload_byte_low by lia. rewrite IH by lia.
  do 2 f_equal.
  replace (8 * Z.of_nat (S k)) with (8 * Z.of_nat k + 8) by lia.
  rewrite Z.pow_add_r by lia.
  rewrite Z.div_div by lia. reflexivity.
Qed.

(** The payload loop, while it stays in the array. *)
Lemma wr_payload_writes (n : nat) :
  forall (pre : list Z) (clen data : Z) (m : nat),
    4 <= clen -> length pre = Z.to_nat clen -> (n <= m)%nat ->
    wr_payload n clen data (pre ++ repeat 0 m)
    = Some (pre ++ map (payload_byte data) (seq (Z.to_nat (clen - 4)) n)
                ++ repeat 0 (m - n)).
Proof.
  induction n as [| n IH]; intros pre clen data m Hc Hpre Hm.
  - cbn [wr_payload seq map app]. rewrite Nat.sub_0_r. reflexivity.
  - destruct m as [| m]; [lia |].
    cbn [wr_payload repeat seq map].
    replace clen with (Z.of_nat (length pre)) at 1 by lia.
    rewrite store_app.
    replace (pre ++ _ :: repeat 0 m)
      with ((pre ++ [Z.land (shr_uint32 data ((clen - 4) * 8)) 0xFF])
              ++ repeat 0 m)
      by (rewrite <- app_assoc; reflexivity).
    rewrite IH by (try rewrite length_app; cbn [length]; lia).
    rewrite <- app_assoc. cbn [app Nat.sub].
    replace (Z.to_nat (clen + 1 - 4)) with (S (Z.to_nat (clen - 4))) by lia.
    unfold payload_byte at 2.
    replace (8 * Z.of_nat (Z.to_nat (clen - 4))) with ((clen - 4) * 8) by lia.
    reflexivity.
Qed.

(** Lines 52 and 64-70 build [wr_out], provided the header and the payload
    fit the array. *)
Lemma wr_out_built (index parameter data wlen : Z) :
  4 <= PECI_WR_PKG_CONFIG_WRITE_LENGTH_DWORD ->
  wlen - 1 <= PECI_WR_PKG_CONFIG_WRITE_LENGTH_DWORD ->
  exists a0 a1 a2 a3,
    store (zeros PECI_WR_PKG_CONFIG_WRITE_LENGTH_DWORD) 0 0x00 = Some a0 /\
    store a0 1 index = Some a1 /\
    store a1 2 (Z.land parameter 0xff) = Some a2 /\
    store a2 3 (Z.land (Z.shiftr parameter 8) 0xff) = Some a3 /\
    wr_payload (Z.to_nat (wlen - 1 - 4)) 4 data a3
    = Some (wr_out PECI_WR_PKG_CONFIG_WRITE_LENGTH_DWORD
              index parameter data wlen).
Proof.
  intros Hsize Hwlen.
  set (N := PECI_WR_PKG_CONFIG_WRITE_LENGTH_DWORD) in *.
  assert (Hz : zeros N = [0; 0; 0; 0] ++ repeat 0 (Z.to_nat N - 4)).
  { unfold zeros. rewrite <- (repeat_app 0 4). f_equal. lia. }
  rewrite Hz.
  do 4 eexists. repeat (split; [reflexivity |]).
  change (index :: ?a :: ?b :: ?r) with ([index; a; b] ++ r).
  replace (0 :: [index; Z.land parameter 0xff;
                 Z.land (Z.shiftr parameter 8) 0xff]
                ++ repeat 0 (Z.to_nat N - 4))
    with ([0; index; Z.land parameter 0xff;
           Z.land (Z.shiftr parameter 8) 0xff]
            ++ repeat 0 (Z.to_nat N - 4)) by reflexivity.
  rewrite wr_payload_writes by (cbn [length]; lia).
  unfold wr_out.
  replace (wlen - 1 - 4) with (wlen - 5) by lia.
  change (Z.to_nat (4 - 4)) with 0%nat.
  rewrite low_byte, (shifted_byte parameter 8) by lia.
  reflexivity.
Qed.

(** For lengths up to 9 the frame built is the serialised frame. *)
Lemma wr_out_serialized (size index parameter data wlen : Z) :
  wlen <= 9 ->
  wr_out size index parameter data wlen
  = wr_frame size index parameter data wlen.
Proof.
  intros Hw. unfold wr_out, wr_frame.
  rewrite payload_serialized by lia.
  cbn [Z.of_nat Z.mul]. rewrite Z.pow_0_r, Z.div_1_r. reflexivity.
Qed.

(** What the C code determines of the frame built. *)
Lemma wr_out_as_written (size index parameter data wlen : Z) :
  4 <= size -> wlen - 1 <= size ->
  frame_as_written size index parameter data wlen
    (wr_out size index parameter data wlen).
Proof.
  intros Hsize Hwlen. unfold frame_as_written, wr_out.
  set (n := Z.to_nat (wlen - 5)).
  assert (Hn : (n <= Z.to_nat size - 4)%nat) by (unfold n; lia).
  split; [| split; [| split]].
  - rewrite !length_app, length_map, length_seq, repeat_length.
    cbn [length]. lia.
  - reflexivity.
  - intros j Hj Hj4.
    change ([0; index; parameter mod 256; parameter / 256 mod 256] ++ ?l)
      with (0 :: index :: parameter mod 256 :: parameter / 256 mod 256 :: l).
    cbn [Nat.add nth_error].
    rewrite nth_error_app1 by (rewrite length_map, length_seq; exact Hj).
    rewrite nth_error_map, nth_error_seq.
    replace (j <? n)%nat with true by (symmetry; apply Nat.ltb_lt; exact Hj).
    cbn [option_map Nat.add]. rewrite payload_byte_low by exact Hj4.
    reflexivity.
  - intros k Hk.
    rewrite nth_error_app2 by (cbn [length]; lia).
    rewrite nth_error_app2 by (rewrite length_map, length_seq; cbn [length]; lia).
    rewrite length_map, length_seq. cbn [length].
    apply nth_error_repeat. lia.
Qed.

(** The whole call in closed form. *)
Lemma peci_Wr_Pkg_Config_run (w : world) (index parameter data wlen : Z) :
  4 <= PECI_WR_PKG_CONFIG_WRITE_LENGTH_DWORD ->
  wlen - 1 <= PECI_WR_PKG_CONFIG_WRITE_LENGTH_DWORD ->
  let req := wr_request wlen
               (wr_out PECI_WR_PKG_CONFIG_WRITE_LENGTH_DWORD
                  (uint8 index) (uint16 parameter) (uint32 data) wlen) in
  let w1 := log Call_board_get_version w in
  peci_Wr_Pkg_Config index parameter data wlen w =
    if board_version w >=? BOARD_VERSION_7 then
      Some (EC_SUCCESS, log (Call_espi_oob_peci_transaction req) w1)
    else
      Some (let rv := fst (pin_bus w (trace w1) req) in
            if rv =? 0 then EC_SUCCESS else rv,
            log (Call_peci_transaction req) w1).
Proof.
  intros Hsize Hwlen req w1.
  destruct (wr_out_built (uint8 index) (uint16 parameter) (uint32 data)
              wlen Hsize Hwlen) as (a0 & a1 & a2 & a3 & E0 & E1 & E2 & E3 & E4).
  unfold peci_Wr_Pkg_Config, bind, lift.
  rewrite E0, E1, E2, E3, E4.
  unfold board_get_version. fold w1. fold (wr_request wlen
    (wr_out PECI_WR_PKG_CONFIG_WRITE_LENGTH_DWORD
       (uint8 index) (uint16 parameter) (uint32 data) wlen)). fold req.
  destruct (board_version w >=? BOARD_VERSION_7).
  - unfold espi_oob_peci_transaction.
    destruct (oob_bus w1 (trace w1) req). reflexivity.
  - unfold peci_transaction.
    change (pin_bus w1) with (pin_bus w).
    destruct (pin_bus w (trace w1) req) as [rv rx]. cbn [fst ret].
    destruct (rv =? 0); reflexivity.
Qed.

End WritePackageConfig.

(** ** The sampling throttle *)

Lemma uint64_small (x : Z) : 0 <= x < 2 ^ 64 -> uint64 x = x.
Proof. intros H. unfold uint64. apply Z.mod_small. exact H. Qed.

Section Throttle.

Context {P : Platform}.

Lemma stop_read_off (w : world) :
  power w CHIPSET_STATE_ANY_OFF = true ->
  stop_read_peci_temp w
  = Some (EC_ERROR_NOT_POWERED,
          log (Call_chipset_in_state CHIPSET_STATE_ANY_OFF)
            (log Call_get_time w)).
Proof.
  intros Hoff.
  unfold stop_read_peci_temp, bind, get_time, chipset_in_state.
  world_proj. rewrite Hoff. reflexivity.
Qed.

Lemma stop_read_active (w : world) :
  power w CHIPSET_STATE_ANY_OFF = false ->
  power w CHIPSET_STATE_STANDBY = false ->
  stop_read_peci_temp w
  = Some (EC_SUCCESS, set_t (clock w) (set_read_count 0 (throttle_log w))).
Proof.
  intros Hoff Hsb.
  unfold stop_read_peci_temp, bind, get_time, chipset_in_state.
  world_proj. rewrite Hoff. world_proj. rewrite Hsb. reflexivity.
Qed.

Lemma stop_read_standby_early (w : world) :
  in_standby w ->
  uint64 (clock w - t_static w) < 7 * SECOND ->
  stop_read_peci_temp w = Some (EC_ERROR_NOT_POWERED, throttle_log w).
Proof.
  intros [Hoff Hsb] Hearly.
  unfold stop_read_peci_temp, bind, get_time, chipset_in_state, get_t.
  world_proj. rewrite Hoff. world_proj. rewrite Hsb. world_proj.
  apply Z.ltb_lt in Hearly. rewrite Hearly. reflexivity.
Qed.

Lemma stop_read_standby_elapsed (w : world) :
  in_standby w ->
  7 * SECOND <= uint64 (clock w - t_static w) ->
  0 <= read_count w <= 3 ->
  stop_read_peci_temp w
  = Some (if read_count w <? 3
          then (EC_SUCCESS,
                set_read_count (read_count w + 1) (throttle_log w))
          else (EC_ERROR_NOT_POWERED,
                set_t (clock w) (set_read_count 0 (throttle_log w)))).
Proof.
  intros [Hoff Hsb] Hlate Hn.
  unfold stop_read_peci_temp, bind, get_time, chipset_in_state, get_t,
    get_read_count, put_read_count, put_t.
  world_proj. rewrite Hoff. world_proj. rewrite Hsb. world_proj.
  apply Z.ltb_ge in Hlate. rewrite Hlate. world_proj.
  rewrite int32_small by lia.
  destruct (Z.ltb_spec (read_count w) 3) as [Hlt | Hge].
  - replace (read_count w + 1 >? 3) with false
      by (symmetry; rewrite Z.gtb_ltb; apply Z.ltb_ge; lia).
    reflexivity.
  - replace (read_count w + 1 >? 3) with true
      by (symmetry; rewrite Z.gtb_ltb; apply Z.ltb_lt; lia).
    reflexivity.
Qed.

(** Every call returns, reads the clock once and touches no bus. *)
Lemma stop_read_total (w : world) :
  exists rv w',
    stop_read_peci_temp w = Some (rv, w') /\
    exists extra,
      trace w' = trace w ++ Call_get_time :: extra /\ quiet extra.
Proof.
  unfold stop_read_peci_temp, bind, get_time, chipset_in_state, get_t,
    get_read_count, put_read_count, put_t.
  world_proj.
  destruct (power w CHIPSET_STATE_ANY_OFF);
    [| world_proj; destruct (power w CHIPSET_STATE_STANDBY);
       [world_proj; destruct (uint64 (clock w - t_static w) <? 7 * SECOND);
        [| world_proj; destruct (int32 (read_count w + 1) >? 3)] |]];
    do 2 eexists; (split; [reflexivity |]);
    cbn [log set_t set_read_count trace];
    (eexists; split; [rewrite <- !app_assoc; reflexivity |]);
    repeat split.
Qed.

(** The counter stays between 0 and 3. *)
Lemma read_count_bounded (w w' : world) (rv : Z) :
  0 <= read_count w <= 3 ->
  stop_read_peci_temp w = Some (rv, w') ->
  0 <= read_count w' <= 3.
Proof.
  intros Hn.
  unfold stop_read_peci_temp, bind, get_time, chipset_in_state, get_t,
    get_read_count, put_read_count, put_t.
  world_proj.
  destruct (power w CHIPSET_STATE_ANY_OFF);
    [| world_proj; destruct (power w CHIPSET_STATE_STANDBY);
       [world_proj; destruct (uint64 (clock w - t_static w) <? 7 * SECOND);
        [| world_proj; rewrite int32_small by lia;
           destruct (Z.gtb_spec (read_count w + 1) 3)] |]];
    intros E; inversion E; subst; world_proj; lia.
Qed.

(** A call in standby at clock [tn], the window being over. *)
Lemma stop_read_standby_at (w : world) (tn : Z) :
  in_standby w ->
  0 <= t_static w <= tn -> tn < 2 ^ 64 ->
  7 * SECOND <= tn - t_static w ->
  0 <= read_count w <= 3 ->
  stop_read_peci_temp (set_clock tn w)
  = Some (if read_count w <? 3
          then (EC_SUCCESS,
                set_read_count (read_count w + 1)
                  (throttle_log (set_clock tn w)))
          else (EC_ERROR_NOT_POWERED,
                set_t tn (set_read_count 0 (throttle_log (set_clock tn w))))).
Proof.
  intros Hsb Ht Htn Hlate Hn.
  rewrite stop_read_standby_elapsed; world_proj;
    [reflexivity | exact Hsb | rewrite uint64_small by lia; lia | lia].
Qed.

(** From a window start with the counter at zero: three calls past the
    window are let through, the fourth is turned down and starts the next
    window. *)
Lemma throttle_four_calls (w : world) (tn1 tn2 tn3 tn4 : Z) :
  in_standby w ->
  read_count w = 0 ->
  0 <= t_static w <= tn1 ->
  7 * SECOND <= tn1 - t_static w ->
  tn1 <= tn2 -> tn2 <= tn3 -> tn3 <= tn4 -> tn4 < 2 ^ 64 ->
  exists w',
    throttle_calls [tn1; tn2; tn3; tn4] w
    = Some ([EC_SUCCESS; EC_SUCCESS; EC_SUCCESS; EC_ERROR_NOT_POWERED], w') /\
    read_count w' = 0 /\ t_static w' = tn4.
Proof.
  intros Hsb Hn Ht H1 H2 H3 H4 H5.
  cbn [throttle_calls].
  rewrite (stop_read_standby_at w tn1) by (try exact Hsb; lia).
  rewrite Hn. cbn [Z.ltb Z.compare Z.add].
  rewrite (stop_read_standby_at _ tn2) by (world_proj; try exact Hsb; lia).
  world_proj. cbn [Z.ltb Z.compare Pos.compare Pos.compare_cont Z.add Pos.add].
  rewrite (stop_read_standby_at _ tn3) by (world_proj; try exact Hsb; lia).
  world_proj.
  cbn [Z.ltb Z.compare Pos.compare Pos.compare_cont Z.add Pos.add Pos.succ].
  rewrite (stop_read_standby_at _ tn4) by (world_proj; try exact Hsb; lia).
  world_proj.
  cbn [Z.ltb Z.compare Pos.compare Pos.compare_cont Z.add Pos.add Pos.succ].
  eexists. split; [reflexivity |].
  split; reflexivity.
Qed.

End Throttle.

(** ** Counting calls in the log *)

Lemma count_extend (f : event -> bool) (tr extra : list event) (e : event) :
  filter f extra = [] ->
  count f (tr ++ e :: extra) = (count f tr + (if f e then 1 else 0))%nat.
Proof.
  intros H. unfold count.
  rewrite filter_app, length_app. cbn [filter].
  destruct (f e); cbn [length]; rewrite H; reflexivity.
Qed.

Lemma quiet_pin (tr : list event) :
  filter is_transaction tr = [] -> filter is_pin tr = [].
Proof.
  induction tr as [| e tr IH]; [reflexivity |].
  cbn [filter]. unfold is_transaction at 1.
  destruct (is_pin e); cbn [orb]; [discriminate |].
  destruct (is_oob e); [discriminate | exact IH].
Qed.

(** ** Read-package-config, the power limits and the entry point *)

Section Calls.

Context {P : Platform}.

(** Lines 20-45 in closed form: one transaction, on the pin bus. *)
Lemma peci_Rd_Pkg_Config_run (w : world) (index parameter rlen : Z)
  (in_buf : list Z) :
  4 <= PECI_RD_PKG_CONFIG_WRITE_LENGTH ->
  exists out,
    firstn 4 out = [0; uint8 index; uint16 parameter mod 256;
                    uint16 parameter / 256 mod 256] /\
    length out = Z.to_nat PECI_RD_PKG_CONFIG_WRITE_LENGTH /\
    let req := rd_request rlen out in_buf in
    peci_Rd_Pkg_Config index parameter rlen in_buf w
    = Some ((let rv := fst (pin_bus w (trace w) req) in
             if rv =? 0 then EC_SUCCESS else rv,
             receive in_buf (snd (pin_bus w (trace w) req))),
            log (Call_peci_transaction req) w).
Proof.
  intros Hsize.
  unfold peci_Rd_Pkg_Config, bind, uninit_array, lift.
  destruct (Z.to_nat PECI_RD_PKG_CONFIG_WRITE_LENGTH)
    as [| [| [| [| n]]]] eqn:En; try lia.
  cbn [seq map].
  rewrite store_0, store_1, store_2, store_3.
  exists (0 :: uint8 index :: Z.land (uint16 parameter) 0xff
            :: Z.land (Z.shiftr (uint16 parameter) 8) 0xff
            :: map (uninit w) (seq 4 n)).
  split; [| split].
  3: { cbn zeta. unfold peci_transaction.
       fold (rd_request rlen
               (0 :: uint8 index :: Z.land (uint16 parameter) 0xff
                  :: Z.land (Z.shiftr (uint16 parameter) 8) 0xff
                  :: map (uninit w) (seq 4 n)) in_buf).
       set (req := rd_request rlen _ in_buf).
       change (r_buf req) with in_buf.
       destruct (pin_bus w (trace w) req) as [rv rx]. cbn [fst snd].
       destruct (rv =? 0); reflexivity. }
  - cbn [firstn]. rewrite low_byte, (shifted_byte (uint16 parameter) 8) by lia.
    reflexivity.
  - cbn [length]. rewrite length_map, length_seq. reflexivity.
Qed.

(** The status of a write, tested and passed on as lines 141-144 do. *)
Lemma pass_status (m : M Z) (w : world) :
  bind m (fun rv => if negb (rv =? 0) then ret rv else ret EC_SUCCESS) w
  = m w.
Proof.
  unfold bind. destruct (m w) as [[rv w'] |]; [| reflexivity].
  destruct (Z.eqb_spec rv 0) as [-> | Hrv]; reflexivity.
Qed.

(** A setter that asks for the power state and, when it is on, hands the
    word to [peci_Wr_Pkg_Config]. *)
Lemma setter_shape (f : Z -> M Z) (index parameter : Z) (word : Z -> Z) :
  (forall watt : Z,
      f watt
      = (on <- chipset_in_state CHIPSET_STATE_ON ;;
         if negb on then ret EC_ERROR_NOT_POWERED else
         rv <- peci_Wr_Pkg_Config index parameter (uint32 (word watt))
                 PECI_WR_PKG_CONFIG_WRITE_LENGTH_DWORD ;;
         if negb (rv =? 0) then ret rv else ret EC_SUCCESS)) ->
  setter_refuses f /\ setter_writes f index parameter word.
Proof.
  intros Hf. split.
  - intros watt w Hoff. rewrite Hf.
    unfold bind at 1. unfold chipset_in_state. rewrite Hoff. reflexivity.
  - intros watt w Hon Hsize. cbn zeta.
    exists (wr_out PECI_WR_PKG_CONFIG_WRITE_LENGTH_DWORD
              (uint8 index) (uint16 parameter) (uint32 (word watt))
              PECI_WR_PKG_CONFIG_WRITE_LENGTH_DWORD).
    split; [apply wr_out_as_written; lia |].
    rewrite Hf.
    unfold bind at 1. unfold chipset_in_state. rewrite Hon. cbn [negb].
    rewrite pass_status.
    rewrite peci_Wr_Pkg_Config_run by lia.
    rewrite uint32_idem. reflexivity.
Qed.

(** The entry point when the throttle turns the call down. *)
Lemma get_val_rejected (w w0 : world) (idx temp rv0 : Z) :
  stop_read_peci_temp w = Some (rv0, w0) ->
  rv0 <> EC_SUCCESS ->
  peci_over_espi_temp_sensor_get_val idx temp w = Some ((rv0, temp), w0).
Proof.
  intros E Hrv. unfold peci_over_espi_temp_sensor_get_val, bind.
  rewrite E.
  replace (rv0 =? EC_SUCCESS) with false
    by (symmetry; apply Z.eqb_neq; exact Hrv).
  reflexivity.
Qed.

(** The entry point when the throttle lets the call through and the first
    reading succeeds. *)
Lemma get_val_first (w w0 w1 : world) (idx temp c1 : Z) :
  stop_read_peci_temp w = Some (EC_SUCCESS, w0) ->
  peci_over_espi_get_cpu_temp temp w0 = Some ((0, c1), w1) ->
  peci_over_espi_temp_sensor_get_val idx temp w = Some ((0, c1), w1).
Proof.
  intros E E1. unfold peci_over_espi_temp_sensor_get_val, bind.
  rewrite E. cbn [EC_SUCCESS Z.eqb negb get_val_loop]. unfold bind.
  rewrite E1. reflexivity.
Qed.

(** The entry point when the first reading fails: the second reading is
    the result, whatever it is. *)
Lemma get_val_second (w w0 w1 w2 : world) (idx temp rv1 c1 rv2 c2 : Z) :
  stop_read_peci_temp w = Some (EC_SUCCESS, w0) ->
  peci_over_espi_get_cpu_temp temp w0 = Some ((rv1, c1), w1) ->
  rv1 <> 0 ->
  peci_over_espi_get_cpu_temp c1 w1 = Some ((rv2, c2), w2) ->
  peci_over_espi_temp_sensor_get_val idx temp w = Some ((rv2, c2), w2).
Proof.
  intros E E1 Hrv E2. unfold peci_over_espi_temp_sensor_get_val, bind.
  rewrite E. cbn [EC_SUCCESS Z.eqb negb get_val_loop]. unfold bind.
  rewrite E1.
  replace (rv1 =? 0) with false by (symmetry; apply Z.eqb_neq; exact Hrv).
  rewrite E2. destruct (rv2 =? 0); reflexivity.
Qed.

(** The shape of every run of the entry point. *)
Lemma get_val_structure (w : world) (idx temp : Z) :
  2 <= PECI_GET_TEMP_READ_LENGTH ->
  exists rv0 w0 ex0,
    stop_read_peci_temp w = Some (rv0, w0) /\
    trace w0 = trace w ++ Call_get_time :: ex0 /\ quiet ex0 /\
    ((rv0 <> EC_SUCCESS /\
      peci_over_espi_temp_sensor_get_val idx temp w = Some ((rv0, temp), w0))
     \/
     (rv0 = EC_SUCCESS /\
      exists rv1 c1 w1 ex1,
        peci_over_espi_get_cpu_temp temp w0 = Some ((rv1, c1), w1) /\
        trace w1 = trace w0
                   ++ Call_espi_oob_peci_transaction get_temp_request :: ex1 /\
        quiet ex1 /\
        ((rv1 = EC_SUCCESS /\
          peci_over_espi_temp_sensor_get_val idx temp w
          = Some ((rv1, c1), w1))
         \/
         (rv1 <> EC_SUCCESS /\
          exists rv2 c2 w2 ex2,
            peci_over_espi_get_cpu_temp c1 w1 = Some ((rv2, c2), w2) /\
            trace w2 = trace w1
                       ++ Call_espi_oob_peci_transaction get_temp_request
                       :: ex2 /\
            quiet ex2 /\
            peci_over_espi_temp_sensor_get_val idx temp w
            = Some ((rv2, c2), w2))))).
Proof.
  intros Hlen.
  destruct (stop_read_total w) as (rv0 & w0 & E0 & ex0 & T0 & Q0).
  exists rv0, w0, ex0. repeat (split; [assumption |]).
  destruct (Z.eq_dec rv0 EC_SUCCESS) as [-> | Hrv0].
  2: { left. split; [exact Hrv0 |]. apply get_val_rejected; assumption. }
  right. split; [reflexivity |].
  destruct (get_cpu_temp_total w0 temp Hlen)
    as (rv1 & c1 & w1 & E1 & _ & _ & ex1 & T1 & Q1).
  exists rv1, c1, w1, ex1. repeat (split; [assumption |]).
  destruct (Z.eq_dec rv1 EC_SUCCESS) as [-> | Hrv1].
  { left. split; [reflexivity |]. eapply get_val_first; eassumption. }
  right. split; [exact Hrv1 |].
  destruct (get_cpu_temp_total w1 c1 Hlen)
    as (rv2 & c2 & w2 & E2 & _ & _ & ex2 & T2 & Q2).
  exists rv2, c2, w2, ex2. repeat (split; [assumption |]).
  eapply get_val_second; eassumption.
Qed.

End Calls.

(** * The claims *)

Section Claims.

Context {P : Platform}.

(** C1. For every reading of two bytes [b0], [b1], with
    [v = b0 | (b1 << 8)], whose offset [o = ((v ^ 0xFFFF) + 1) >> 6] is
    below [CONFIG_PECI_TJMAX], a reading the bus completes returns success
    and exactly [CONFIG_PECI_TJMAX - o + 273] Kelvin.  The offset is the
    16-bit complement of [v] plus one, shifted right by 6 with truncation:
    [(65536 - v) / 64] rounded down. *)
Theorem get_cpu_temp_kelvin (w : world) (cpu_temp b0 b1 : Z) (rest : list Z) :
  EC_ERROR_TIMEOUT <> EC_SUCCESS ->
  2 <= PECI_GET_TEMP_READ_LENGTH ->
  CONFIG_PECI_TJMAX <= INT_MAX - 273 ->
  0 <= b0 < 256 -> 0 <= b1 < 256 ->
  oob_bus w (trace w) get_temp_request = (EC_SUCCESS, b0 :: b1 :: rest) ->
  let v := Z.lor b0 (Z.shiftl b1 8) in
  let o := Z.shiftr (Z.lxor v 0xFFFF + 1) 6 in
  o < CONFIG_PECI_TJMAX ->
  peci_over_espi_get_cpu_temp cpu_temp w
  = Some ((EC_SUCCESS, CONFIG_PECI_TJMAX - o + 273),
          log (Call_espi_oob_peci_transaction get_temp_request) w) /\
  o = (65536 - v) / 64.
Proof.
  intros Hto Hlen Htj H0 H1 Hbus v o Ho.
  destruct (offset_value b0 b1 H0 H1) as (_ & _ & Hdiv & Hrange).
  fold v in Hdiv, Hrange. fold o in Hdiv, Hrange.
  split; [| exact Hdiv].
  rewrite (get_cpu_temp_converts w cpu_temp b0 b1 rest Hto Hlen H0 H1 Hbus).
  fold v. fold o.
  replace (o >=? CONFIG_PECI_TJMAX) with false
    by (symmetry; rewrite Z.geb_leb; apply Z.leb_gt; exact Ho).
  unfold INT_MAX in Htj.
  rewrite (int32_small (CONFIG_PECI_TJMAX - o)) by lia.
  rewrite int32_small by lia.
  reflexivity.
Qed.

(** C2. For every reading whose offset [o = ((v ^ 0xFFFF) + 1) >> 6] is at
    or above [CONFIG_PECI_TJMAX], the conversion fails with
    [EC_ERROR_INVAL]; the attempt does not hand back a success with a
    Kelvin value. *)
Theorem get_cpu_temp_invalid (w : world) (cpu_temp b0 b1 : Z) (rest : list Z) :
  EC_ERROR_TIMEOUT <> EC_SUCCESS ->
  EC_ERROR_INVAL <> EC_SUCCESS ->
  2 <= PECI_GET_TEMP_READ_LENGTH ->
  0 <= b0 < 256 -> 0 <= b1 < 256 ->
  oob_bus w (trace w) get_temp_request = (EC_SUCCESS, b0 :: b1 :: rest) ->
  let v := Z.lor b0 (Z.shiftl b1 8) in
  let o := Z.shiftr (Z.lxor v 0xFFFF + 1) 6 in
  CONFIG_PECI_TJMAX <= o ->
  (exists (c : Z) (w' : world),
      peci_over_espi_get_cpu_temp cpu_temp w
      = Some ((EC_ERROR_INVAL, c), w')) /\
  (forall (k : Z) (w' : world),
      peci_over_espi_get_cpu_temp cpu_temp w <> Some ((EC_SUCCESS, k), w')).
Proof.
  intros Hto Hinv Hlen H0 H1 Hbus v o Ho.
  rewrite (get_cpu_temp_converts w cpu_temp b0 b1 rest Hto Hlen H0 H1 Hbus).
  fold v. fold o.
  replace (o >=? CONFIG_PECI_TJMAX) with true
    by (symmetry; rewrite Z.geb_leb; apply Z.leb_le; exact Ho).
  split; [eauto |].
  intros k w' E. inversion E. congruence.
Qed.

(** C10. When the conversion fails with [EC_ERROR_INVAL], the caller's
    cell already holds the decoded offset, not a Kelvin temperature; when
    the transaction itself fails, with a timeout or any other status, the
    cell holds what it held before the call. *)
Theorem get_cpu_temp_output_cell (w : world) (cpu_temp : Z) :
  EC_ERROR_TIMEOUT <> EC_SUCCESS ->
  2 <= PECI_GET_TEMP_READ_LENGTH ->
  (forall (b0 b1 : Z) (rest : list Z),
      0 <= b0 < 256 -> 0 <= b1 < 256 ->
      oob_bus w (trace w) get_temp_request = (EC_SUCCESS, b0 :: b1 :: rest) ->
      let o := Z.shiftr (Z.lxor (Z.lor b0 (Z.shiftl b1 8)) 0xFFFF + 1) 6 in
      CONFIG_PECI_TJMAX <= o ->
      peci_over_espi_get_cpu_temp cpu_temp w
      = Some ((EC_ERROR_INVAL, o),
              log (Call_espi_oob_peci_transaction get_temp_request) w)) /\
  (forall (rv : Z) (rx : list Z),
      rv <> EC_SUCCESS ->
      oob_bus w (trace w) get_temp_request = (rv, rx) ->
      exists w' : world,
        peci_over_espi_get_cpu_temp cpu_temp w = Some ((rv, cpu_temp), w')).
Proof.
  intros Hto Hlen. split.
  - intros b0 b1 rest H0 H1 Hbus o Ho.
    rewrite (get_cpu_temp_converts w cpu_temp b0 b1 rest Hto Hlen H0 H1 Hbus).
    fold o.
    replace (o >=? CONFIG_PECI_TJMAX) with true
      by (symmetry; rewrite Z.geb_leb; apply Z.leb_le; exact Ho).
    reflexivity.
  - intros rv rx Hrv Hbus.
    destruct (get_cpu_temp_bus_failure w cpu_temp rv rx Hrv Hbus)
      as (w' & E & _).
    eauto.
Qed.

(** C3. In [peci_Wr_Pkg_Config], on the pin path (board revision below
    [BOARD_VERSION_7]) a failure of the transaction is handed back to the
    caller; on the out-of-band path (revision at or above it) the status of
    the transaction is not looked at and the call returns success whatever
    the bus answered. *)
Theorem wr_pkg_config_error_asymmetry (w : world)
  (index parameter data wlen : Z) :
  4 <= PECI_WR_PKG_CONFIG_WRITE_LENGTH_DWORD ->
  wlen - 1 <= PECI_WR_PKG_CONFIG_WRITE_LENGTH_DWORD ->
  let req := wr_request wlen
               (wr_out PECI_WR_PKG_CONFIG_WRITE_LENGTH_DWORD
                  (uint8 index) (uint16 parameter) (uint32 data) wlen) in
  let w1 := log Call_board_get_version w in
  (board_version w < BOARD_VERSION_7 ->
   forall (rv : Z) (rx : list Z),
     pin_bus w (trace w1) req = (rv, rx) ->
     rv <> EC_SUCCESS ->
     peci_Wr_Pkg_Config index parameter data wlen w
     = Some (rv, log (Call_peci_transaction req) w1)) /\
  (BOARD_VERSION_7 <= board_version w ->
   forall (rv : Z) (rx : list Z),
     oob_bus w (trace w1) req = (rv, rx) ->
     peci_Wr_Pkg_Config index parameter data wlen w
     = Some (EC_SUCCESS, log (Call_espi_oob_peci_transaction req) w1)).
Proof.
  intros Hsize Hwlen req w1.
  rewrite (peci_Wr_Pkg_Config_run w index parameter data wlen Hsize Hwlen).
  fold req. fold w1.
  split.
  - intros Hver rv rx Hbus Hrv.
    replace (board_version w >=? BOARD_VERSION_7) with false
      by (symmetry; rewrite Z.geb_leb; apply Z.leb_gt; exact Hver).
    rewrite Hbus. cbn [fst].
    replace (rv =? 0) with false by (symmetry; apply Z.eqb_neq; exact Hrv).
    reflexivity.
  - intros Hver rv rx _.
    replace (board_version w >=? BOARD_VERSION_7) with true
      by (symmetry; rewrite Z.geb_leb; apply Z.leb_le; exact Hver).
    reflexivity.
Qed.

(** C7, as amended.  For every call with index [i], parameter [p], data
    word [d] and outbound length [wlen] whose frame fits the [out] array,
    the frame sent has byte 0 = 0x00, byte 1 = [i], byte 2 = low byte of
    [p], byte 3 = high byte of [p], and from offset 4 the payload bytes
    that hold the little-endian bytes of [d], up to offset 7.  For [wlen]
    up to 9 these are all the [wlen - 5] payload bytes, and the frame is
    the header followed by the little-endian serialisation of [d]; for
    [d = 0x11223344] and [wlen = 8] the bytes at offsets 4..6 are 0x44,
    0x33, 0x22. *)
Theorem wr_pkg_config_frame (w : world) (index parameter data wlen : Z) :
  0 <= index < 2 ^ 8 -> 0 <= parameter < 2 ^ 16 -> 0 <= data < 2 ^ 32 ->
  4 <= PECI_WR_PKG_CONFIG_WRITE_LENGTH_DWORD ->
  wlen - 1 <= PECI_WR_PKG_CONFIG_WRITE_LENGTH_DWORD ->
  exists (rv : Z) (w' : world) (out : list Z),
    peci_Wr_Pkg_Config index parameter data wlen w = Some (rv, w') /\
    trace w'
    = trace w
      ++ [Call_board_get_version;
          (if board_version w >=? BOARD_VERSION_7
           then Call_espi_oob_peci_transaction
           else Call_peci_transaction) (wr_request wlen out)] /\
    length out = Z.to_nat PECI_WR_PKG_CONFIG_WRITE_LENGTH_DWORD /\
    firstn 4 out = [0; index; parameter mod 256; parameter / 256] /\
    (forall j : nat,
        (j < Z.to_nat (wlen - 5))%nat -> (j < 4)%nat ->
        nth_error out (4 + j)
        = Some (Z.land (Z.shiftr data (8 * Z.of_nat j)) 0xFF)) /\
    (wlen <= 9 ->
     out = [0; index; parameter mod 256; parameter / 256]
             ++ le_serialize (Z.to_nat (wlen - 5)) data
             ++ repeat 0 (Z.to_nat PECI_WR_PKG_CONFIG_WRITE_LENGTH_DWORD - 4
                          - Z.to_nat (wlen - 5))) /\
    (data = 0x11223344 -> wlen = 8 ->
     firstn 3 (skipn 4 out) = [0x44; 0x33; 0x22]).
Proof.
  intros Hi Hp Hd Hsize Hwlen.
  assert (Hhi : parameter / 256 mod 256 = parameter / 256).
  { apply Z.mod_small.
    split; [apply Z.div_pos | apply Z.div_lt_upper_bound]; lia. }
  set (out := wr_out PECI_WR_PKG_CONFIG_WRITE_LENGTH_DWORD
                index parameter data wlen).
  assert (Hout : wr_out PECI_WR_PKG_CONFIG_WRITE_LENGTH_DWORD
                   (uint8 index) (uint16 parameter) (uint32 data) wlen = out).
  { unfold out, uint8, uint16, uint32.
    rewrite (Z.mod_small index), (Z.mod_small parameter (2 ^ 16)),
      (Z.mod_small data) by lia.
    reflexivity. }
  destruct (wr_out_as_written PECI_WR_PKG_CONFIG_WRITE_LENGTH_DWORD
              index parameter data wlen Hsize Hwlen)
    as (Hlen & Hhead & Hpay & _).
  fold out in Hlen, Hhead, Hpay.
  assert (Hser : wlen <= 9 ->
                 out = [0; index; parameter mod 256; parameter / 256]
                         ++ le_serialize (Z.to_nat (wlen - 5)) data
                         ++ repeat 0
                              (Z.to_nat PECI_WR_PKG_CONFIG_WRITE_LENGTH_DWORD
                               - 4 - Z.to_nat (wlen - 5))).
  { intros H9. unfold out. rewrite wr_out_serialized by exact H9.
    unfold wr_frame. rewrite Hhi. reflexivity. }
  assert (Hrun : exists (rv : Z) (w' : world),
             peci_Wr_Pkg_Config index parameter data wlen w = Some (rv, w') /\
             trace w'
             = trace w
               ++ [Call_board_get_version;
                   (if board_version w >=? BOARD_VERSION_7
                    then Call_espi_oob_peci_transaction
                    else Call_peci_transaction) (wr_request wlen out)]).
  { rewrite (peci_Wr_Pkg_Config_run w index parameter data wlen Hsize Hwlen).
    rewrite Hout.
    destruct (board_version w >=? BOARD_VERSION_7);
      do 2 eexists; (split; [reflexivity |]);
      cbn [log trace]; rewrite <- app_assoc; reflexivity. }
  destruct Hrun as (rv & w' & E & T).
  exists rv, w', out.
  split; [exact E |]. split; [exact T |]. split; [exact Hlen |].
  split; [rewrite Hhead, Hhi; reflexivity |].
  split; [| split; [exact Hser |]].
  - intros j Hj Hj4. rewrite (Hpay j Hj Hj4).
    rewrite shifted_byte by lia. reflexivity.
  - intros Hdata Hw. rewrite Hser by lia. subst data wlen. reflexivity.
Qed.

(** C8. Routing.  Every call of [peci_Wr_Pkg_Config] asks for the board
    revision and sends its one transaction out-of-band when the revision
    is at or above [BOARD_VERSION_7], on the pin below it.  A temperature
    reading, and the entry point around it, send out-of-band only and
    never ask for the revision.  [peci_Rd_Pkg_Config] sends its one
    transaction on the pin and never asks for the revision. *)
Theorem transport_routing (w : world) :
  (forall index parameter data wlen : Z,
      4 <= PECI_WR_PKG_CONFIG_WRITE_LENGTH_DWORD ->
      wlen - 1 <= PECI_WR_PKG_CONFIG_WRITE_LENGTH_DWORD ->
      exists (rv : Z) (w' : world) (req : peci_data),
        peci_Wr_Pkg_Config index parameter data wlen w = Some (rv, w') /\
        trace w'
        = trace w
          ++ [Call_board_get_version;
              if board_version w >=? BOARD_VERSION_7
              then Call_espi_oob_peci_transaction req
              else Call_peci_transaction req]) /\
  (forall cpu_temp : Z,
      2 <= PECI_GET_TEMP_READ_LENGTH ->
      exists (r : Z * Z) (w' : world) (extra : list event),
        peci_over_espi_get_cpu_temp cpu_temp w = Some (r, w') /\
        trace w'
        = trace w
          ++ Call_espi_oob_peci_transaction get_temp_request :: extra /\
        quiet extra) /\
  (forall idx temp : Z,
      2 <= PECI_GET_TEMP_READ_LENGTH ->
      exists (r : Z * Z) (w' : world),
        peci_over_espi_temp_sensor_get_val idx temp w = Some (r, w') /\
        count is_pin (trace w') = count is_pin (trace w) /\
        count is_version (trace w') = count is_version (trace w)) /\
  (forall (index parameter rlen : Z) (in_buf : list Z),
      4 <= PECI_RD_PKG_CONFIG_WRITE_LENGTH ->
      exists (r : Z * list Z) (w' : world) (req : peci_data),
        peci_Rd_Pkg_Config index parameter rlen in_buf w = Some (r, w') /\
        trace w' = trace w ++ [Call_peci_transaction req]).
Proof.
  split; [| split; [| split]].
  - intros index parameter data wlen Hsize Hwlen.
    rewrite (peci_Wr_Pkg_Config_run w index parameter data wlen Hsize Hwlen).
    destruct (board_version w >=? BOARD_VERSION_7);
      do 3 eexists; (split; [reflexivity |]);
      cbn [log trace]; rewrite <- app_assoc; reflexivity.
  - intros cpu_temp Hlen.
    destruct (get_cpu_temp_total w cpu_temp Hlen)
      as (rv & c & w' & E & _ & _ & extra & T & Q).
    exists (rv, c), w', extra. auto.
  - intros idx temp Hlen.
    destruct (get_val_structure w idx temp Hlen)
      as (rv0 & w0 & ex0 & _ & T0 & (Qt0 & _ & Qv0) & Hcases).
    assert (C0 : count is_pin (trace w0) = count is_pin (trace w) /\
                 count is_version (trace w0) = count is_version (trace w)).
    { rewrite T0, !count_extend by auto using quiet_pin.
      cbn [is_pin is_version]. lia. }
    destruct Hcases as [[_ E] | (_ & rv1 & c1 & w1 & ex1 & _ & T1
                                  & (Qt1 & _ & Qv1) & Hcases)].
    { eauto. }
    assert (C1 : count is_pin (trace w1) = count is_pin (trace w) /\
                 count is_version (trace w1) = count is_version (trace w)).
    { rewrite T1, !count_extend by auto using quiet_pin.
      cbn [is_pin is_version]. lia. }
    destruct Hcases as [[_ E] | (_ & rv2 & c2 & w2 & ex2 & _ & T2
                                  & (Qt2 & _ & Qv2) & E)].
    { eauto. }
    exists (rv2, c2), w2. split; [exact E |].
    rewrite T2, !count_extend by auto using quiet_pin.
    cbn [is_pin is_version]. lia.
  - intros index parameter rlen in_buf Hsize.
    destruct (peci_Rd_Pkg_Config_run w index parameter rlen in_buf Hsize)
      as (out & _ & _ & E).
    cbn zeta in E. rewrite E.
    do 3 eexists. split; reflexivity.
Qed.

(** C9. Each of the four setters (PL1, PL2, PL4, Psys-PL2) hands back
    [EC_ERROR_NOT_POWERED] without any transaction when the chipset is not
    in the on state; otherwise it composes its word, time window, enable
    bit and magnitude for PL1, PL2 and Psys-PL2, the magnitude alone for
    PL4, and issues one write-package-config transaction with the index and
    parameter of that limit and the double-word length, handing back the
    failure that surfaces. *)
Theorem power_limit_setters :
  (setter_refuses peci_update_PL1 /\
   setter_writes peci_update_PL1
     PECI_INDEX_POWER_LIMITS_PL1 PECI_PARAMS_POWER_LIMITS_PL1
     (fun watt => Z.lor (Z.lor PECI_PL1_CONTROL_TIME_WINDOWS
                               PECI_PL1_POWER_LIMIT_ENABLE)
                        (PECI_PL1_POWER_LIMIT watt))) /\
  (setter_refuses peci_update_PL2 /\
   setter_writes peci_update_PL2
     PECI_INDEX_POWER_LIMITS_PL2 PECI_PARAMS_POWER_LIMITS_PL2
     (fun watt => Z.lor (Z.lor PECI_PL2_CONTROL_TIME_WINDOWS
                               PECI_PL2_POWER_LIMIT_ENABLE)
                        (PECI_PL2_POWER_LIMIT watt))) /\
  (setter_refuses peci_update_PL4 /\
   setter_writes peci_update_PL4
     PECI_INDEX_POWER_LIMITS_PL4 PECI_PARAMS_POWER_LIMITS_PL4
     (fun watt => PECI_PL4_POWER_LIMIT watt)) /\
  (setter_refuses peci_update_PsysPL2 /\
   setter_writes peci_update_PsysPL2
     PECI_INDEX_POWER_LIMITS_PSYS_PL2 PECI_PARAMS_POWER_LIMITS_PSYS_PL2
     (fun watt => Z.lor (Z.lor PECI_PSYS_PL2_CONTROL_TIME_WINDOWS
                               PECI_PSYS_PL2_POWER_LIMIT_ENABLE)
                        (PECI_PSYS_PL2_POWER_LIMIT watt))).
Proof.
  split; [| split; [| split]]; apply setter_shape; intros watt; reflexivity.
Qed.

(** C6. The entry point consults the throttle exactly once per call.  If
    the throttle turns the call down, its status is handed back at once
    and no transaction is made.  If it lets the call through, the reading
    is attempted at most twice, each attempt one transaction: the first
    success ends the call, and when both attempts fail the status of the
    second is handed back. *)
Theorem temp_sensor_get_val_attempts (w : world) (idx temp : Z) :
  2 <= PECI_GET_TEMP_READ_LENGTH ->
  exists (rv0 : Z) (w0 : world),
    stop_read_peci_temp w = Some (rv0, w0) /\
    count is_get_time (trace w0) = S (count is_get_time (trace w)) /\
    count is_transaction (trace w0) = count is_transaction (trace w) /\
    ((rv0 <> EC_SUCCESS /\
      peci_over_espi_temp_sensor_get_val idx temp w = Some ((rv0, temp), w0))
     \/
     (rv0 = EC_SUCCESS /\
      exists (rv1 c1 : Z) (w1 : world),
        peci_over_espi_get_cpu_temp temp w0 = Some ((rv1, c1), w1) /\
        count is_get_time (trace w1) = count is_get_time (trace w0) /\
        count is_transaction (trace w1)
        = S (count is_transaction (trace w0)) /\
        ((rv1 = EC_SUCCESS /\
          peci_over_espi_temp_sensor_get_val idx temp w
          = Some ((rv1, c1), w1))
         \/
         (rv1 <> EC_SUCCESS /\
          exists (rv2 c2 : Z) (w2 : world),
            peci_over_espi_get_cpu_temp c1 w1 = Some ((rv2, c2), w2) /\
            count is_get_time (trace w2) = count is_get_time (trace w1) /\
            count is_transaction (trace w2)
            = S (count is_transaction (trace w1)) /\
            peci_over_espi_temp_sensor_get_val idx temp w
            = Some ((rv2, c2), w2))))).
Proof.
  intros Hlen.
  destruct (get_val_structure w idx temp Hlen)
    as (rv0 & w0 & ex0 & E0 & T0 & (Qt0 & Qg0 & _) & Hcases).
  exists rv0, w0. split; [exact E0 |].
  split; [rewrite T0, count_extend by assumption; cbn [is_get_time]; lia |].
  split; [rewrite T0, count_extend by assumption; cbn; lia |].
  destruct Hcases as [H | (Hrv0 & rv1 & c1 & w1 & ex1 & E1 & T1
                           & (Qt1 & Qg1 & _) & Hcases)];
    [left; exact H | right].
  split; [exact Hrv0 |].
  exists rv1, c1, w1. split; [exact E1 |].
  split; [rewrite T1, count_extend by assumption; cbn [is_get_time]; lia |].
  split; [rewrite T1, count_extend by assumption; cbn; lia |].
  destruct Hcases as [H | (Hrv1 & rv2 & c2 & w2 & ex2 & E2 & T2
                           & (Qt2 & Qg2 & _) & E)];
    [left; exact H | right].
  split; [exact Hrv1 |].
  exists rv2, c2, w2. split; [exact E2 |].
  split; [rewrite T2, count_extend by assumption; cbn [is_get_time]; lia |].
  split; [rewrite T2, count_extend by assumption; cbn; lia |].
  exact E.
Qed.

(** C4. The throttle in standby.  A call less than 7 seconds after the
    stored window start is turned down with [EC_ERROR_NOT_POWERED] and
    changes neither static.  Once the window is over, a call is let through
    while fewer than 3 were, and counted; after the 3rd the next call is
    turned down, sets the counter to zero and the window start to the
    current time.  The counter never leaves the range 0..3, and from a
    window start four calls past the window are answered success, success,
    success, not powered. *)
Theorem throttle_standby_window (w : world) :
  in_standby w ->
  0 <= t_static w <= clock w -> clock w < 2 ^ 64 ->
  (clock w - t_static w < 7 * SECOND ->
   stop_read_peci_temp w = Some (EC_ERROR_NOT_POWERED, throttle_log w)) /\
  (7 * SECOND <= clock w - t_static w ->
   (0 <= read_count w < 3 ->
    stop_read_peci_temp w
    = Some (EC_SUCCESS,
            set_read_count (read_count w + 1) (throttle_log w))) /\
   (read_count w = 3 ->
    stop_read_peci_temp w
    = Some (EC_ERROR_NOT_POWERED,
            set_t (clock w) (set_read_count 0 (throttle_log w)))) /\
   (read_count w = 0 ->
    forall tn2 tn3 tn4 : Z,
      clock w <= tn2 -> tn2 <= tn3 -> tn3 <= tn4 -> tn4 < 2 ^ 64 ->
      exists w' : world,
        throttle_calls [clock w; tn2; tn3; tn4] w
        = Some ([EC_SUCCESS; EC_SUCCESS; EC_SUCCESS; EC_ERROR_NOT_POWERED],
                w') /\
        read_count w' = 0 /\ t_static w' = tn4)) /\
  (0 <= read_count w <= 3 ->
   forall (rv : Z) (w' : world),
     stop_read_peci_temp w = Some (rv, w') -> 0 <= read_count w' <= 3).
Proof.
  intros Hsb Ht Hclk.
  assert (Hu : uint64 (clock w - t_static w) = clock w - t_static w)
    by (apply uint64_small; lia).
  split; [| split].
  - intros Hearly. apply stop_read_standby_early; [exact Hsb | lia].
  - intros Hlate. split; [| split].
    + intros Hn. rewrite stop_read_standby_elapsed by (try exact Hsb; lia).
      replace (read_count w <? 3) with true
        by (symmetry; apply Z.ltb_lt; lia).
      reflexivity.
    + intros Hn. rewrite stop_read_standby_elapsed by (try exact Hsb; lia).
      rewrite Hn. reflexivity.
    + intros Hn tn2 tn3 tn4 H2 H3 H4 H5.
      apply throttle_four_calls; first [exact Hsb | lia].
  - intros Hn rv w' E. exact (read_count_bounded w w' rv Hn E).
Qed.

(** C5, as amended.  In standby, a call arriving at or after 7 seconds
    from the stored window start is let through when fewer than 3 calls
    were let through since that start, and it then counts itself (the
    counter goes up by one, the window start stays); when 3 were let
    through it is turned down, and it is this call that sets the counter
    to zero and the window start to the current time. *)
Theorem throttle_standby_elapsed_call (w : world) :
  in_standby w ->
  0 <= t_static w <= clock w -> clock w < 2 ^ 64 ->
  7 * SECOND <= clock w - t_static w ->
  0 <= read_count w <= 3 ->
  exists (rv : Z) (w' : world),
    stop_read_peci_temp w = Some (rv, w') /\
    (read_count w < 3 ->
     rv = EC_SUCCESS /\ read_count w' = read_count w + 1 /\
     t_static w' = t_static w) /\
    (read_count w = 3 ->
     rv = EC_ERROR_NOT_POWERED /\ read_count w' = 0 /\
     t_static w' = clock w).
Proof.
  intros Hsb Ht Hclk Hlate Hn.
  rewrite stop_read_standby_elapsed
    by (try exact Hsb; try rewrite uint64_small; lia).
  destruct (Z.ltb_spec (read_count w) 3) as [Hlt | Hge];
    do 2 eexists; (split; [reflexivity |]); world_proj;
    split; intros H; first [lia | repeat split].
Qed.

End Claims.

(** * The statements on the demonstration platform *)

(** Closed side conditions are decided by evaluation. *)
Ltac by_evaluation :=
  vm_compute;
  repeat match goal with
         | |- _ /\ _ => split
         | |- _ -> False => let H := fresh in intro H; discriminate H
         | |- _ = _ => reflexivity
         end.

(** A reading of 0xF640: offset 39, 100 - 39 + 273 = 334 K. *)
Lemma get_cpu_temp_kelvin_witness :
  @peci_over_espi_get_cpu_temp demo_platform 0
    (demo_world power_on 7 0 0 0 0 0 [0x40; 0xF6])
  = Some ((0, 334),
          log (Call_espi_oob_peci_transaction
                 (@get_temp_request demo_platform))
            (demo_world power_on 7 0 0 0 0 0 [0x40; 0xF6])).
Proof.
  refine (proj1 (@get_cpu_temp_kelvin demo_platform
                   (demo_world power_on 7 0 0 0 0 0 [0x40; 0xF6])
                   0 0x40 0xF6 [] _ _ _ _ _ _ _));
    by_evaluation.
Defined.

(** A reading of 0x0000: offset 1024, above the ceiling of 100. *)
Lemma get_cpu_temp_invalid_witness :
  exists (c : Z) (w' : world),
    @peci_over_espi_get_cpu_temp demo_platform 0
      (demo_world power_on 7 0 0 0 0 0 [0; 0])
    = Some ((5, c), w').
Proof.
  refine (proj1 (@get_cpu_temp_invalid demo_platform
                   (demo_world power_on 7 0 0 0 0 0 [0; 0])
                   0 0 0 [] _ _ _ _ _ _ _));
    by_evaluation.
Defined.

(** The cell holds 7 before the call: 1024 after an invalid reading, still
    7 after a timeout (status 4). *)
Lemma get_cpu_temp_output_cell_witness :
  @peci_over_espi_get_cpu_temp demo_platform 7
    (demo_world power_on 7 0 0 0 0 0 [0; 0])
  = Some ((5, 1024),
          log (Call_espi_oob_peci_transaction
                 (@get_temp_request demo_platform))
            (demo_world power_on 7 0 0 0 0 0 [0; 0])) /\
  exists w' : world,
    @peci_over_espi_get_cpu_temp demo_platform 7
      (demo_world power_on 7 0 0 0 0 4 [0; 0])
    = Some ((4, 7), w').
Proof.
  split.
  - refine (proj1 (@get_cpu_temp_output_cell demo_platform
                     (demo_world power_on 7 0 0 0 0 0 [0; 0]) 7 _ _)
              0 0 [] _ _ _ _);
      by_evaluation.
  - refine (proj2 (@get_cpu_temp_output_cell demo_platform
                     (demo_world power_on 7 0 0 0 0 4 [0; 0]) 7 _ _)
              4 [0; 0] _ _);
      by_evaluation.
Defined.

(** Revision 6, the pin bus failing with status 3: the 3 comes back.
    Revision 7, the out-of-band bus failing with status 4: success. *)
Lemma wr_pkg_config_error_asymmetry_witness :
  (exists w' : world,
      @peci_Wr_Pkg_Config demo_platform 0x1A 0 0x11223344 8
        (demo_world power_on 6 0 0 0 3 0 [])
      = Some (3, w')) /\
  (exists w' : world,
      @peci_Wr_Pkg_Config demo_platform 0x1A 0 0x11223344 8
        (demo_world power_on 7 0 0 0 0 4 [])
      = Some (0, w')).
Proof.
  split; eexists.
  - refine (proj1 (@wr_pkg_config_error_asymmetry demo_platform
                     (demo_world power_on 6 0 0 0 3 0 [])
                     0x1A 0 0x11223344 8 _ _) _ 3 [] _ _);
      by_evaluation.
  - refine (proj2 (@wr_pkg_config_error_asymmetry demo_platform
                     (demo_world power_on 7 0 0 0 0 4 [])
                     0x1A 0 0x11223344 8 _ _) _ 4 [] _);
      by_evaluation.
Defined.

(** The frame of the specification's example. *)
Lemma wr_pkg_config_frame_witness :
  exists (rv : Z) (w' : world),
    @peci_Wr_Pkg_Config demo_platform 0x1A 0x1234 0x11223344 8
      (demo_world power_on 7 0 0 0 0 0 [])
    = Some (rv, w') /\
    trace w'
    = [Call_board_get_version;
       Call_espi_oob_peci_transaction
         (@wr_request demo_platform 8
            [0x00; 0x1A; 0x34; 0x12; 0x44; 0x33; 0x22; 0; 0; 0])].
Proof.
  destruct (@wr_pkg_config_frame demo_platform
              (demo_world power_on 7 0 0 0 0 0 [])
              0x1A 0x1234 0x11223344 8)
    as (rv & w' & out & E & T & _ & _ & _ & Hser & _); [by_evaluation .. |].
  exists rv, w'. split; [exact E |].
  rewrite T. rewrite Hser by by_evaluation. reflexivity.
Defined.

(** C7 as it is worded fails on the code.  With [wlen = 12] the seven
    payload bytes do not fit the array of 10 bytes: the loop writes past
    its end and no frame is sent.  With [wlen = 10] the fifth payload byte
    comes from a shift by 32, where a target that takes the count modulo
    32 stores the low byte 0x44 of the word again and not the zero of its
    serialisation. *)
Lemma serialized_frame_fails :
  ~ @sends_serialized_frame demo_platform
      (demo_world power_on 7 0 0 0 0 0 []) 0x1A 0x1234 0x11223344 12 /\
  ~ @sends_serialized_frame demo_platform
      (demo_world power_on 7 0 0 0 0 0 []) 0x1A 0x1234 0x11223344 10.
Proof.
  split; intros (rv & w' & E & T).
  - vm_compute in E. discriminate E.
  - vm_compute in E. inversion E; subst rv w'.
    vm_compute in T. discriminate T.
Qed.

Lemma transport_routing_witness :
  (exists (rv : Z) (w' : world) (req : peci_data),
      @peci_Wr_Pkg_Config demo_platform 0x1A 0 1 10
        (demo_world power_on 6 0 0 0 0 0 [])
      = Some (rv, w') /\
      trace w' = [Call_board_get_version; Call_peci_transaction req]) /\
  (exists (r : Z * list Z) (w' : world) (req : peci_data),
      @peci_Rd_Pkg_Config demo_platform 0x1A 0 4 [0; 0; 0; 0]
        (demo_world power_on 7 0 0 0 0 0 [])
      = Some (r, w') /\
      trace w' = [Call_peci_transaction req]).
Proof.
  split.
  - refine (proj1 (@transport_routing demo_platform
                     (demo_world power_on 6 0 0 0 0 0 []))
              0x1A 0 1 10 _ _);
      by_evaluation.
  - refine (proj2 (proj2 (proj2 (@transport_routing demo_platform
                                   (demo_world power_on 7 0 0 0 0 0 []))))
              0x1A 0 4 [0; 0; 0; 0] _);
      by_evaluation.
Defined.

(** PL1 at 28 W: refused in standby; written when on, the pin bus of
    revision 6 failing with status 3. *)
Lemma power_limit_setters_witness :
  @peci_update_PL1 demo_platform 28 (demo_world power_standby 6 0 0 0 3 0 [])
  = Some (8, log (Call_chipset_in_state CHIPSET_STATE_ON)
               (demo_world power_standby 6 0 0 0 3 0 [])) /\
  exists w' : world,
    @peci_update_PL1 demo_platform 28 (demo_world power_on 6 0 0 0 3 0 [])
    = Some (3, w').
Proof.
  split.
  - refine (proj1 (proj1 (@power_limit_setters demo_platform)) 28
              (demo_world power_standby 6 0 0 0 3 0 []) _);
      by_evaluation.
  - destruct (proj2 (proj1 (@power_limit_setters demo_platform)) 28
                (demo_world power_on 6 0 0 0 3 0 []))
      as (out & _ & E); [by_evaluation .. |].
    eexists. exact E.
Defined.

(** The chipset on, the bus failing twice with status 3: one reading of
    the clock, the status of the second attempt. *)
Lemma temp_sensor_get_val_attempts_witness :
  exists (rv0 : Z) (w0 : world),
    @stop_read_peci_temp demo_platform (demo_world power_on 7 0 0 0 0 3 [])
    = Some (rv0, w0) /\
    count is_get_time (trace w0) = 1%nat.
Proof.
  destruct (@temp_sensor_get_val_attempts demo_platform
              (demo_world power_on 7 0 0 0 0 3 []) 0 7)
    as (rv0 & w0 & E & Hc & _).
  - by_evaluation.
  - exists rv0, w0. split; [exact E | exact Hc].
Defined.

(** Standby, window start 0: turned down at 6.999999 s; let through at
    7 s with the counter at 2; turned down at 7 s with the counter at 3. *)
Lemma throttle_standby_window_witness :
  @stop_read_peci_temp demo_platform
    (demo_world power_standby 7 6999999 0 0 0 0 [])
  = Some (8, throttle_log (demo_world power_standby 7 6999999 0 0 0 0 [])) /\
  @stop_read_peci_temp demo_platform
    (demo_world power_standby 7 7000000 0 3 0 0 [])
  = Some (8, set_t 7000000
               (set_read_count 0
                  (throttle_log
                     (demo_world power_standby 7 7000000 0 3 0 0 [])))).
Proof.
  split.
  - refine (proj1 (@throttle_standby_window demo_platform
                     (demo_world power_standby 7 6999999 0 0 0 0 [])
                     _ _ _) _);
      by_evaluation.
  - refine (proj1 (proj2 (proj1 (proj2
              (@throttle_standby_window demo_platform
                 (demo_world power_standby 7 7000000 0 3 0 0 [])
                 _ _ _)) _)) _);
      by_evaluation.
Defined.

Lemma throttle_standby_elapsed_call_witness :
  exists (rv : Z) (w' : world),
    @stop_read_peci_temp demo_platform
      (demo_world power_standby 7 7000000 0 2 0 0 [])
    = Some (rv, w') /\
    (2 < 3 -> rv = 0 /\ read_count w' = 3 /\ t_static w' = 0).
Proof.
  destruct (@throttle_standby_elapsed_call demo_platform
              (demo_world power_standby 7 7000000 0 2 0 0 []))
    as (rv & w' & E & Hlt & _); try by_evaluation.
  exists rv, w'. split; [exact E | exact Hlt].
Defined.

(** C5 as it is worded fails on the code.  In standby at exactly 7 s past
    the window start: with the counter at 3 (three calls let through) the
    call is turned down; with the counter at 0 it is let through but
    leaves the counter at 1, not 0. *)
Lemma accepts_and_resets_fails :
  ~ @accepts_and_resets demo_platform
      (demo_world power_standby 7 7000000 0 3 0 0 []) /\
  ~ @accepts_and_resets demo_platform
      (demo_world power_standby 7 7000000 0 0 0 0 []).
Proof.
  split; intros H.
  - destruct H as (w' & E & _); try by_evaluation.
    vm_compute in E. discriminate E.
  - destruct H as (w' & E & Hn); try by_evaluation.
    vm_compute in E. inversion E; subst w'.
    vm_compute in Hn. discriminate Hn.
Qed.

(** * Further properties of the code *)

(** ** The throttle over several calls *)

Lemma standby_step_bounds (window : Z) (t n tn : Z) :
  0 <= n <= 3 ->
  0 <= snd (snd (standby_step window (t, n) tn)) <= 3.
Proof.
  intros Hn. unfold standby_step.
  destruct (tn - t <? window); [cbn; lia |].
  destruct (Z.ltb_spec n 3); cbn; lia.
Qed.

(** Once the budget of the current window is used up, or the window was
    started at or after [m], a call that is let through comes at least a
    window after [m]. *)
Lemma standby_run_gap (window : Z) (times : list Z) :
  forall (t n m : Z) (j : nat) (b : Z),
    Forall (Z.le m) times ->
    m <= t \/ 3 - n <= Z.of_nat (trues (firstn j (standby_run window (t, n) times))) ->
    nth_error (standby_run window (t, n) times) j = Some true ->
    nth_error times j = Some b ->
    window <= b - m.
Proof.
  induction times as [| tn rest IH]; intros t n m j b Hm Hor Hj Hb.
  - destruct j; discriminate Hb.
  - inversion Hm as [| ? ? Hm1 Hm2]; subst.
    cbn [standby_run] in Hor, Hj. unfold standby_step in Hor, Hj.
    destruct (Z.ltb_spec (tn - t) window) as [Hearly | Hlate].
    + destruct j as [| j]; [discriminate Hj |].
      cbn [nth_error firstn] in Hj, Hb, Hor.
      apply (IH t n m j b Hm2); [| exact Hj | exact Hb].
      unfold trues in Hor. cbn [filter] in Hor. exact Hor.
    + destruct (Z.ltb_spec n 3) as [Hlt | Hge].
      * destruct j as [| j].
        -- cbn [nth_error firstn] in Hb, Hor. inversion Hb; subst b.
           unfold trues in Hor. cbn [filter length Z.of_nat] in Hor. lia.
        -- cbn [nth_error firstn] in Hj, Hb, Hor.
           apply (IH t (n + 1) m j b Hm2); [| exact Hj | exact Hb].
           unfold trues in Hor. cbn [filter length] in Hor.
           unfold trues. lia.
      * destruct j as [| j]; [discriminate Hj |].
        cbn [nth_error firstn] in Hj, Hb.
        apply (IH tn 0 m j b Hm2); [left; exact Hm1 | exact Hj | exact Hb].
Qed.

(** Any call let through after three others were let through comes at
    least a window after the first of them. *)
Lemma standby_run_burst (window : Z) (i : nat) :
  forall (times : list Z) (t n : Z) (j : nat) (a b : Z),
    0 <= n <= 3 ->
    StronglySorted Z.le times ->
    (i < j)%nat ->
    nth_error times i = Some a ->
    nth_error times j = Some b ->
    nth_error (standby_run window (t, n) times) j = Some true ->
    (3 <= trues (firstn (j - i)
                   (skipn i (standby_run window (t, n) times))))%nat ->
    window <= b - a.
Proof.
  induction i as [| i IH]; intros times t n j a b Hn Hs Hij Ha Hb Hj Hc.
  - destruct times as [| tn rest]; [discriminate Ha |].
    cbn [nth_error] in Ha. inversion Ha; subst tn.
    rewrite Nat.sub_0_r in Hc. cbn [skipn] in Hc.
    apply (standby_run_gap window (a :: rest) t n a j b).
    + inversion Hs; subst. constructor; [lia | assumption].
    + right. lia.
    + exact Hj.
    + exact Hb.
  - destruct times as [| tn rest]; [discriminate Ha |].
    destruct j as [| j]; [lia |].
    cbn [nth_error] in Ha, Hb.
    cbn [standby_run] in Hj, Hc.
    pose proof (standby_step_bounds window t n tn Hn) as Hn'.
    destruct (standby_step window (t, n) tn) as [a0 [t' n']].
    cbn [snd] in Hn'.
    cbn [nth_error skipn Nat.sub] in Hj, Hc.
    apply (IH rest t' n' j a b); try assumption; [| lia].
    inversion Hs; assumption.
Qed.

Section ThrottleRuns.

Context {P : Platform}.

Lemma trues_accepts (l : list bool) :
  EC_ERROR_NOT_POWERED <> EC_SUCCESS ->
  accepts (map status_of l) = trues l.
Proof.
  intros Hnp. unfold accepts, trues.
  induction l as [| a l IH]; [reflexivity |].
  cbn [map filter]. destruct a; cbn [status_of].
  - cbn [EC_SUCCESS Z.eqb length]. rewrite IH. reflexivity.
  - replace (EC_ERROR_NOT_POWERED =? EC_SUCCESS) with false
      by (symmetry; apply Z.eqb_neq; exact Hnp).
    exact IH.
Qed.

(** In standby, with the clock not running backwards and not wrapping,
    the code follows [standby_run]. *)
Lemma throttle_calls_standby_run (times : list Z) :
  forall w : world,
    in_standby w ->
    0 <= read_count w <= 3 ->
    0 <= t_static w ->
    StronglySorted Z.le times ->
    Forall (fun tn => t_static w <= tn < 2 ^ 64) times ->
    exists w' : world,
      throttle_calls times w
      = Some (map status_of
                (standby_run (7 * SECOND) (t_static w, read_count w) times),
              w').
Proof.
  induction times as [| tn rest IH]; intros w Hsb Hn Ht Hs Hr.
  - eexists. reflexivity.
  - inversion Hs as [| ? ? Hs' Hle]; subst.
    inversion Hr as [| ? ? Hr1 Hr2]; subst.
    cbn [throttle_calls standby_run]. unfold standby_step.
    destruct (Z.ltb_spec (tn - t_static w) (7 * SECOND)) as [Hearly | Hlate].
    + rewrite (stop_read_standby_early (set_clock tn w))
        by (try exact Hsb; world_proj; rewrite uint64_small by lia; lia).
      destruct (IH (throttle_log (set_clock tn w)) Hsb Hn Ht Hs' Hr2)
        as (w' & E).
      world_proj. cbn [t_static read_count throttle_log log set_clock] in E.
      rewrite E. eexists. reflexivity.
    + rewrite (stop_read_standby_at w tn) by (try exact Hsb; lia).
      assert (Hr3 : Forall (fun x => tn <= x < 2 ^ 64) rest).
      { rewrite Forall_forall in *. intros x Hx.
        specialize (Hle x Hx). specialize (Hr2 x Hx). lia. }
      destruct (Z.ltb_spec (read_count w) 3) as [Hlt | Hge].
      * destruct (IH (set_read_count (read_count w + 1)
                        (throttle_log (set_clock tn w))))
          as (w' & E); try assumption; world_proj; try lia.
        cbn [t_static read_count throttle_log log set_clock set_read_count]
          in E.
        rewrite E. eexists. reflexivity.
      * destruct (IH (set_t tn (set_read_count 0
                                  (throttle_log (set_clock tn w)))))
          as (w' & E); try assumption; world_proj; try lia.
        cbn [t_static read_count throttle_log log set_clock set_read_count
             set_t] in E.
        rewrite E. eexists. reflexivity.
Qed.

(** A call of the throttle hands back one of two statuses. *)
Lemma stop_read_status (w w' : world) (rv : Z) :
  stop_read_peci_temp w = Some (rv, w') ->
  rv = EC_SUCCESS \/ rv = EC_ERROR_NOT_POWERED.
Proof.
  unfold stop_read_peci_temp, bind, get_time, chipset_in_state, get_t,
    get_read_count, put_read_count, put_t.
  world_proj.
  destruct (power w CHIPSET_STATE_ANY_OFF);
    [| world_proj; destruct (power w CHIPSET_STATE_STANDBY);
       [world_proj; destruct (uint64 (clock w - t_static w) <? 7 * SECOND);
        [| world_proj; destruct (int32 (read_count w + 1) >? 3)] |]];
    intros E; inversion E; auto.
Qed.

(** X1. While the chipset is off every call is turned down, whatever the
    standby bit, the clock and the statics are, and an off period of any
    length leaves the window start and the counter as they were. *)
Theorem throttle_off_period
  (calls : list ((chipset_state_mask -> bool) * Z)) :
  forall w : world,
    Forall (fun c => fst c CHIPSET_STATE_ANY_OFF = true) calls ->
    exists w' : world,
      throttle_schedule calls w
      = Some (repeat EC_ERROR_NOT_POWERED (length calls), w') /\
      t_static w' = t_static w /\ read_count w' = read_count w /\
      count is_transaction (trace w') = count is_transaction (trace w).
Proof.
  induction calls as [| [pw tn] rest IH]; intros w Hoff.
  - exists w. repeat split.
  - inversion Hoff as [| ? ? Hpw Hrest]; subst. cbn [fst] in Hpw.
    cbn [throttle_schedule].
    rewrite (stop_read_off (set_clock tn (set_power pw w))) by exact Hpw.
    destruct (IH (log (Call_chipset_in_state CHIPSET_STATE_ANY_OFF)
                    (log Call_get_time (set_clock tn (set_power pw w))))
                Hrest) as (w' & E & Ht & Hn & Hc).
    rewrite E. exists w'. split; [reflexivity |].
    env_proj. cbn [log t_static read_count trace set_clock set_power]
      in Ht, Hn, Hc.
    repeat split; try assumption.
    rewrite Hc. rewrite <- app_assoc. cbn [app].
    rewrite (count_extend is_transaction (trace w)
               [Call_chipset_in_state CHIPSET_STATE_ANY_OFF] Call_get_time)
      by reflexivity.
    cbn. lia.
Qed.

(** X2. A call while the chipset is neither off nor in standby is let
    through whatever the statics are and starts a window at its clock;
    when the chipset is in standby afterwards, a call less than 7 seconds
    after that clock is turned down and a call from 7 seconds on is let
    through. *)
Theorem throttle_active_then_standby (w : world)
  (pw : chipset_state_mask -> bool) (tn : Z) :
  power w CHIPSET_STATE_ANY_OFF = false ->
  power w CHIPSET_STATE_STANDBY = false ->
  pw CHIPSET_STATE_ANY_OFF = false ->
  pw CHIPSET_STATE_STANDBY = true ->
  0 <= clock w <= tn -> tn < 2 ^ 64 ->
  exists w1 : world,
    stop_read_peci_temp w = Some (EC_SUCCESS, w1) /\
    t_static w1 = clock w /\ read_count w1 = 0 /\
    (tn - clock w < 7 * SECOND ->
     exists w2 : world,
       stop_read_peci_temp (set_clock tn (set_power pw w1))
       = Some (EC_ERROR_NOT_POWERED, w2) /\
       t_static w2 = clock w /\ read_count w2 = 0) /\
    (7 * SECOND <= tn - clock w ->
     exists w2 : world,
       stop_read_peci_temp (set_clock tn (set_power pw w1))
       = Some (EC_SUCCESS, w2) /\
       t_static w2 = clock w /\ read_count w2 = 1).
Proof.
  intros Hoff Hsb Hoff' Hsb' Hclk Htn.
  rewrite (stop_read_active w Hoff Hsb).
  eexists. split; [reflexivity |].
  split; [reflexivity |]. split; [reflexivity |].
  split.
  - intros Hearly.
    rewrite stop_read_standby_early;
      [| split; assumption
       | env_proj; rewrite uint64_small by lia; lia].
    eexists. split; [reflexivity |]. split; reflexivity.
  - intros Hlate.
    rewrite stop_read_standby_elapsed;
      [| split; assumption
       | env_proj; rewrite uint64_small by lia; lia
       | env_proj; lia].
    eexists. split; [reflexivity |]. split; reflexivity.
Qed.

(** X3. While the chipset stays in standby and the clock neither runs
    backwards nor wraps, a call that is let through after three calls
    were let through comes at least 7 seconds after the first of them:
    no span shorter than 7 seconds holds four reads. *)
Theorem throttle_standby_burst (w : world) (times rvs : list Z)
  (i j : nat) (a b : Z) :
  EC_ERROR_NOT_POWERED <> EC_SUCCESS ->
  in_standby w ->
  0 <= read_count w <= 3 ->
  0 <= t_static w ->
  StronglySorted Z.le times ->
  Forall (fun tn => t_static w <= tn < 2 ^ 64) times ->
  option_map fst (throttle_calls times w) = Some rvs ->
  (i < j)%nat ->
  nth_error times i = Some a ->
  nth_error times j = Some b ->
  nth_error rvs j = Some EC_SUCCESS ->
  (3 <= accepts (firstn (j - i) (skipn i rvs)))%nat ->
  7 * SECOND <= b - a.
Proof.
  intros Hnp Hsb Hn Ht Hs Hr E Hij Ha Hb Hj Hc.
  destruct (throttle_calls_standby_run times w Hsb Hn Ht Hs Hr) as (w2 & E2).
  set (res := standby_run (7 * SECOND) (t_static w, read_count w) times) in *.
  rewrite E2 in E. cbn [option_map fst] in E.
  assert (Hrvs : rvs = map status_of res) by congruence.
  subst rvs. clear E E2.
  apply (standby_run_burst (7 * SECOND) i times (t_static w) (read_count w)
           j a b Hn Hs Hij Ha Hb); fold res.
  - rewrite nth_error_map in Hj. revert Hj.
    destruct (nth_error res j) as [[|] |]; cbn [option_map status_of];
      intros Hj; [reflexivity | | discriminate Hj].
    inversion Hj. congruence.
  - rewrite skipn_map, firstn_map, trues_accepts in Hc by exact Hnp.
    exact Hc.
Qed.

(** X4. Over any sequence of calls, whatever power state and clock the
    environment sets before each, the counter stays between 0 and 3 and
    every status is [EC_SUCCESS] or [EC_ERROR_NOT_POWERED]. *)
Theorem throttle_schedule_invariant
  (calls : list ((chipset_state_mask -> bool) * Z)) :
  forall w : world,
    0 <= read_count w <= 3 ->
    exists (rvs : list Z) (w' : world),
      throttle_schedule calls w = Some (rvs, w') /\
      length rvs = length calls /\
      Forall (fun rv => rv = EC_SUCCESS \/ rv = EC_ERROR_NOT_POWERED) rvs /\
      0 <= read_count w' <= 3.
Proof.
  induction calls as [| [pw tn] rest IH]; intros w Hn.
  - exists [], w. repeat split; [constructor | lia | lia].
  - cbn [throttle_schedule].
    destruct (stop_read_total (set_clock tn (set_power pw w)))
      as (rv & w1 & E & _).
    rewrite E.
    assert (Hn1 : 0 <= read_count w1 <= 3)
      by (apply (read_count_bounded _ w1 rv) in E; [exact E | exact Hn]).
    destruct (IH w1 Hn1) as (rvs & w' & E' & Hlen & Hall & Hn').
    rewrite E'. exists (rv :: rvs), w'.
    split; [reflexivity |]. split; [cbn; lia |].
    split; [| exact Hn'].
    constructor; [exact (stop_read_status _ _ _ E) | exact Hall].
Qed.

End ThrottleRuns.

(** ** The frames of the package-config calls *)

Lemma store_nat_out_of_range (a : list Z) :
  forall (i : nat) (v : Z), (length a <= i)%nat -> store_nat a i v = None.
Proof.
  induction a as [| x a IH]; intros i v Hi; [destruct i; reflexivity |].
  destruct i as [| i]; cbn [length] in Hi; [lia |].
  cbn [store_nat]. rewrite IH by lia. reflexivity.
Qed.

Lemma store_out_of_range (a : list Z) (i v : Z) :
  Z.of_nat (length a) <= i -> store a i v = None.
Proof.
  intros Hi. unfold store.
  destruct (Z.ltb_spec i 0); [reflexivity |].
  apply store_nat_out_of_range. lia.
Qed.

(** The payload loop leaves the array when it has more bytes to write
    than the array has room for. *)
Lemma wr_payload_overflow {P : Platform} (n : nat) :
  forall (pre : list Z) (clen data : Z) (m : nat),
    0 <= clen -> length pre = Z.to_nat clen -> (m < n)%nat ->
    wr_payload n clen data (pre ++ repeat 0 m) = None.
Proof.
  induction n as [| n IH]; intros pre clen data m Hc Hpre Hm; [lia |].
  cbn [wr_payload]. destruct m as [| m].
  - cbn [repeat]. rewrite app_nil_r.
    rewrite store_out_of_range by lia. reflexivity.
  - cbn [repeat].
    replace clen with (Z.of_nat (length pre)) at 1 by lia.
    rewrite store_app.
    replace (pre ++ _ :: repeat 0 m)
      with ((pre ++ [Z.land (shr_uint32 data ((clen - 4) * 8)) 0xFF])
              ++ repeat 0 m)
      by (rewrite <- app_assoc; reflexivity).
    apply IH; [lia | rewrite length_app; cbn [length]; lia | lia].
Qed.

Lemma le_combine_serialize (n : nat) :
  forall d : Z, le_combine (le_serialize n d) = d mod 2 ^ (8 * Z.of_nat n).
Proof.
  induction n as [| n IH]; intros d.
  - cbn [le_serialize le_combine Z.of_nat Z.mul]. rewrite Z.pow_0_r.
    symmetry. apply Z.mod_1_r.
  - cbn [le_serialize le_combine]. rewrite IH.
    replace (8 * Z.of_nat (S n)) with (8 + 8 * Z.of_nat n) by lia.
    rewrite Z.pow_add_r by lia. change (2 ^ 8) with 256.
    rewrite Z.rem_mul_r by lia. reflexivity.
Qed.

Lemma firstn_exact (l r : list Z) : firstn (length l) (l ++ r) = l.
Proof.
  induction l as [| x l IH]; [reflexivity |].
  cbn [length app firstn]. rewrite IH. reflexivity.
Qed.

Lemma firstn_of_seq (n : nat) :
  forall s m : nat, (n <= m)%nat -> firstn n (seq s m) = seq s n.
Proof.
  induction n as [| n IH]; intros s m Hn; [reflexivity |].
  destruct m as [| m]; [lia |].
  cbn [seq firstn]. rewrite IH by lia. reflexivity.
Qed.

Lemma firstn_seq_map (f : nat -> Z) (n m : nat) (r : list Z) :
  (n <= m)%nat -> firstn n (map f (seq 0 m) ++ r) = map f (seq 0 n).
Proof.
  intros Hn.
  rewrite firstn_app, length_map, length_seq.
  replace (n - m)%nat with 0%nat by lia.
  cbn [firstn]. rewrite app_nil_r.
  rewrite firstn_map, firstn_of_seq by exact Hn. reflexivity.
Qed.

Lemma receive_nothing (buf : list Z) : receive buf [] = buf.
Proof. unfold receive. cbn [app length skipn]. apply firstn_all. Qed.

Lemma receive_covering (buf rx : list Z) :
  (length buf <= length rx)%nat -> receive buf rx = firstn (length buf) rx.
Proof.
  intros H. unfold receive.
  rewrite firstn_app.
  replace (length buf - length rx)%nat with 0%nat by lia.
  cbn [firstn]. apply app_nil_r.
Qed.

Section Frames.

Context {P : Platform}.

(** X5. [peci_Wr_Pkg_Config] has no guard on [wlen]: it stays inside its
    [out] array exactly when the array holds the four header bytes and
    [wlen - 1] does not exceed its size; with a larger [wlen] the payload
    loop writes past the end of the array. *)
Theorem wr_pkg_config_in_bounds_iff (w : world)
  (index parameter data wlen : Z) :
  (exists r : Z * world,
      peci_Wr_Pkg_Config index parameter data wlen w = Some r)
  <->
  4 <= PECI_WR_PKG_CONFIG_WRITE_LENGTH_DWORD /\
  wlen - 1 <= PECI_WR_PKG_CONFIG_WRITE_LENGTH_DWORD.
Proof.
  split.
  - intros [r E].
    destruct (Z.lt_ge_cases PECI_WR_PKG_CONFIG_WRITE_LENGTH_DWORD 4)
      as [Hsmall | Hsize].
    { exfalso. revert E.
      unfold peci_Wr_Pkg_Config, bind, lift, zeros.
      destruct (Z.to_nat PECI_WR_PKG_CONFIG_WRITE_LENGTH_DWORD)
        as [| [| [| [| k]]]] eqn:Ek; try lia; cbn [repeat];
        try rewrite store_0; try rewrite store_1; try rewrite store_2;
        (rewrite store_out_of_range by (cbn [length]; lia));
        discriminate. }
    split; [lia |].
    destruct (Z.le_gt_cases (wlen - 1) PECI_WR_PKG_CONFIG_WRITE_LENGTH_DWORD)
      as [Hok | Hbig]; [exact Hok |].
    exfalso. revert E.
    unfold peci_Wr_Pkg_Config, bind, lift.
    assert (Hz : zeros PECI_WR_PKG_CONFIG_WRITE_LENGTH_DWORD
                 = [0; 0; 0; 0]
                     ++ repeat 0
                          (Z.to_nat PECI_WR_PKG_CONFIG_WRITE_LENGTH_DWORD - 4)).
    { unfold zeros. rewrite <- (repeat_app 0 4). f_equal. lia. }
    rewrite Hz. cbn [app].
    rewrite store_0, store_1, store_2, store_3.
    change (0 :: uint8 index :: ?a :: ?b :: ?r)
      with ([0; uint8 index; a; b] ++ r).
    rewrite wr_payload_overflow by (cbn [length]; lia).
    discriminate.
  - intros [Hsize Hwlen].
    rewrite (peci_Wr_Pkg_Config_run w index parameter data wlen Hsize Hwlen).
    destruct (board_version w >=? BOARD_VERSION_7); eauto.
Qed.

(** X6. The payload bytes of a write frame that hold data, the first
    [min (wlen - 5) 4] of them, decode little-endian to the data word cut
    to that many bytes; from [wlen = 9] on the bytes at offsets 4 to 7
    carry the whole 32-bit word. *)
Theorem wr_pkg_config_payload_decodes (w : world)
  (index parameter data wlen : Z) :
  4 <= PECI_WR_PKG_CONFIG_WRITE_LENGTH_DWORD ->
  wlen - 1 <= PECI_WR_PKG_CONFIG_WRITE_LENGTH_DWORD ->
  let n := Nat.min (Z.to_nat (wlen - 5)) 4 in
  exists (rv : Z) (w' : world) (out : list Z),
    peci_Wr_Pkg_Config index parameter data wlen w = Some (rv, w') /\
    trace w'
    = trace w
      ++ [Call_board_get_version;
          (if board_version w >=? BOARD_VERSION_7
           then Call_espi_oob_peci_transaction
           else Call_peci_transaction) (wr_request wlen out)] /\
    le_combine (firstn n (skipn 4 out))
    = uint32 data mod 2 ^ (8 * Z.of_nat n) /\
    (9 <= wlen -> le_combine (firstn 4 (skipn 4 out)) = uint32 data).
Proof.
  intros Hsize Hwlen n.
  set (out := wr_out PECI_WR_PKG_CONFIG_WRITE_LENGTH_DWORD
                (uint8 index) (uint16 parameter) (uint32 data) wlen).
  assert (Hpay : firstn n (skipn 4 out) = le_serialize n (uint32 data)).
  { unfold out, wr_out. cbn [app skipn].
    rewrite firstn_seq_map by (unfold n; lia).
    rewrite payload_serialized by (unfold n; lia).
    cbn [Z.of_nat Z.mul]. rewrite Z.pow_0_r, Z.div_1_r. reflexivity. }
  assert (Hdec : le_combine (firstn n (skipn 4 out))
                 = uint32 data mod 2 ^ (8 * Z.of_nat n))
    by (rewrite Hpay; apply le_combine_serialize).
  rewrite (peci_Wr_Pkg_Config_run w index parameter data wlen Hsize Hwlen).
  fold out.
  assert (Hfull : 9 <= wlen ->
                  le_combine (firstn 4 (skipn 4 out)) = uint32 data).
  { intros H9.
    assert (Hn : n = 4%nat) by (unfold n; lia).
    rewrite Hn in Hdec. rewrite Hdec. apply Z.mod_small.
    change (2 ^ (8 * Z.of_nat 4)) with (2 ^ 32).
    unfold uint32. apply Z.mod_pos_bound. lia. }
  destruct (board_version w >=? BOARD_VERSION_7);
    do 3 eexists; (split; [reflexivity |]);
    (split; [cbn [log trace]; rewrite <- app_assoc; reflexivity |]);
    split; assumption.
Qed.

(** X7. [peci_Rd_Pkg_Config] sends a request of command
    [PECI_CMD_RD_PKG_CFG] whose frame starts with 0x00, the index, the low
    and the high byte of the parameter; the bytes of [out] past the header
    are never written and go out as the array held them.  The status of
    the transaction is handed back as it is, and the caller's buffer with
    the bytes the bus delivered written over its start: also when the
    transaction failed, and unchanged when the bus delivered nothing. *)
Theorem rd_pkg_config_frame (w : world) (index parameter rlen : Z)
  (in_buf : list Z) :
  4 <= PECI_RD_PKG_CONFIG_WRITE_LENGTH ->
  exists out : list Z,
    length out = Z.to_nat PECI_RD_PKG_CONFIG_WRITE_LENGTH /\
    firstn 4 out = [0; uint8 index; uint16 parameter mod 256;
                    uint16 parameter / 256] /\
    (forall k : nat,
        (4 <= k < Z.to_nat PECI_RD_PKG_CONFIG_WRITE_LENGTH)%nat ->
        nth_error out k = Some (uninit w k)) /\
    let req := rd_request rlen out in_buf in
    let rv := fst (pin_bus w (trace w) req) in
    let rx := snd (pin_bus w (trace w) req) in
    peci_Rd_Pkg_Config index parameter rlen in_buf w
    = Some ((rv, receive in_buf rx), log (Call_peci_transaction req) w) /\
    (rx = [] -> receive in_buf rx = in_buf) /\
    ((length in_buf <= length rx)%nat ->
     receive in_buf rx = firstn (length in_buf) rx).
Proof.
  intros Hsize.
  unfold peci_Rd_Pkg_Config, bind, uninit_array, lift.
  destruct (Z.to_nat PECI_RD_PKG_CONFIG_WRITE_LENGTH)
    as [| [| [| [| n]]]] eqn:En; try lia.
  cbn [seq map].
  rewrite store_0, store_1, store_2, store_3.
  exists (0 :: uint8 index :: Z.land (uint16 parameter) 0xff
            :: Z.land (Z.shiftr (uint16 parameter) 8) 0xff
            :: map (uninit w) (seq 4 n)).
  split; [| split; [| split]].
  - cbn [length]. rewrite length_map, length_seq. reflexivity.
  - cbn [firstn]. rewrite low_byte, (shifted_byte (uint16 parameter) 8) by lia.
    change (2 ^ 8) with 256.
    rewrite (Z.mod_small (uint16 parameter / 256)); [reflexivity |].
    assert (0 <= uint16 parameter < 2 ^ 16)
      by (unfold uint16; apply Z.mod_pos_bound; lia).
    split; [apply Z.div_pos | apply Z.div_lt_upper_bound]; lia.
  - intros k Hk.
    destruct k as [| [| [| [| k]]]]; try lia.
    cbn [nth_error].
    rewrite nth_error_map, nth_error_seq.
    replace (k <? n)%nat with true by (symmetry; apply Nat.ltb_lt; lia).
    reflexivity.
  - cbn zeta. unfold peci_transaction.
    fold (rd_request rlen
            (0 :: uint8 index :: Z.land (uint16 parameter) 0xff
               :: Z.land (Z.shiftr (uint16 parameter) 8) 0xff
               :: map (uninit w) (seq 4 n)) in_buf).
    set (req := rd_request rlen _ in_buf).
    change (r_buf req) with in_buf.
    destruct (pin_bus w (trace w) req) as [rv rx]. cbn [fst snd].
    split; [destruct (Z.eqb_spec rv 0) as [-> | Hrv]; reflexivity |].
    split.
    + intros ->. apply receive_nothing.
    + apply receive_covering.
Qed.

End Frames.

(** ** Readings for any answer of the bus *)

Lemma load_fit (n i : nat) (rx : list Z) :
  (i < n)%nat -> load (fit n rx) (Z.of_nat i) = Some (nth i rx 0).
Proof.
  intros Hi. unfold load, fit.
  destruct (Z.ltb_spec (Z.of_nat i) 0); [lia |].
  rewrite Nat2Z.id, nth_error_firstn.
  replace (i <? n)%nat with true by (symmetry; apply Nat.ltb_lt; exact Hi).
  destruct (Nat.lt_ge_cases i (length rx)) as [Hin | Hout].
  - rewrite nth_error_app1 by exact Hin.
    apply nth_error_nth'. exact Hin.
  - rewrite nth_error_app2 by exact Hout.
    rewrite nth_error_repeat by lia.
    rewrite nth_overflow by exact Hout. reflexivity.
Qed.

Lemma load_fit_first (n : nat) (rx : list Z) :
  (1 <= n)%nat -> load (fit n rx) 0 = Some (nth 0 rx 0).
Proof. intros H. exact (load_fit n 0 rx H). Qed.

Lemma load_fit_second (n : nat) (rx : list Z) :
  (2 <= n)%nat -> load (fit n rx) 1 = Some (nth 1 rx 0).
Proof. intros H. exact (load_fit n 1 rx H). Qed.

Lemma nth_is_byte (rx : list Z) (i : nat) :
  Forall is_byte rx -> is_byte (nth i rx 0).
Proof.
  intros H. destruct (Nat.lt_ge_cases i (length rx)) as [Hin | Hout].
  - rewrite Forall_forall in H. apply H. apply nth_In. exact Hin.
  - rewrite nth_overflow by exact Hout. unfold is_byte. lia.
Qed.

Section Readings.

Context {P : Platform}.

(** One reading once the bus has answered with success, whatever bytes it
    delivered, few or many. *)
Lemma get_cpu_temp_reads (w : world) (cpu_temp : Z) (rx : list Z) :
  EC_ERROR_TIMEOUT <> EC_SUCCESS ->
  2 <= PECI_GET_TEMP_READ_LENGTH ->
  is_byte (nth 0 rx 0) -> is_byte (nth 1 rx 0) ->
  oob_bus w (trace w) get_temp_request = (EC_SUCCESS, rx) ->
  let o := (65536 - (nth 0 rx 0 + 256 * nth 1 rx 0)) / 64 in
  0 <= o <= 1024 /\
  peci_over_espi_get_cpu_temp cpu_temp w =
    Some (if o >=? CONFIG_PECI_TJMAX then (EC_ERROR_INVAL, o)
          else (EC_SUCCESS, int32 (int32 (CONFIG_PECI_TJMAX - o) + 273)),
          log (Call_espi_oob_peci_transaction get_temp_request) w).
Proof.
  intros Hto Hlen H0 H1 Hbus o.
  destruct (offset_value _ _ H0 H1) as (_ & Ho & Hdiv & Hrange).
  cbv zeta in Hdiv, Hrange, Ho.
  rewrite Hdiv in Ho, Hrange. clear Hdiv.
  assert (Hv : Z.lor (nth 0 rx 0) (Z.shiftl (nth 1 rx 0) 8)
               = nth 0 rx 0 + 256 * nth 1 rx 0)
    by (rewrite Z.lor_comm; apply raw_value; assumption).
  rewrite Hv in Ho, Hrange. fold o in Ho, Hrange.
  split; [exact Hrange |].
  unfold peci_over_espi_get_cpu_temp, bind, espi_oob_peci_transaction.
  fold get_temp_request. rewrite Hbus.
  assert (E : (EC_SUCCESS =? EC_ERROR_TIMEOUT) = false)
    by (apply Z.eqb_neq; congruence).
  rewrite E. change (EC_SUCCESS =? 0) with true. cbn [ret negb].
  unfold lift. rewrite receive_get_temp.
  rewrite load_fit_second, load_fit_first by lia.
  rewrite Ho.
  destruct (o >=? CONFIG_PECI_TJMAX); reflexivity.
Qed.

(** A reading that succeeds comes from a successful transaction, and its
    value is in range. *)
Lemma get_cpu_temp_success (w w' : world) (cpu_temp k rv : Z) (rx : list Z) :
  EC_ERROR_TIMEOUT <> EC_SUCCESS ->
  EC_ERROR_INVAL <> EC_SUCCESS ->
  2 <= PECI_GET_TEMP_READ_LENGTH ->
  CONFIG_PECI_TJMAX <= INT_MAX - 273 ->
  oob_bus w (trace w) get_temp_request = (rv, rx) ->
  Forall is_byte rx ->
  peci_over_espi_get_cpu_temp cpu_temp w = Some ((EC_SUCCESS, k), w') ->
  rv = EC_SUCCESS /\
  k = CONFIG_PECI_TJMAX - (65536 - (nth 0 rx 0 + 256 * nth 1 rx 0)) / 64
      + 273 /\
  273 < k <= CONFIG_PECI_TJMAX + 273.
Proof.
  intros Hto Hinv Hlen Htj Hbus Hrx E.
  destruct (Z.eq_dec rv 0) as [-> | Hrv].
  2: { destruct (get_cpu_temp_bus_failure w cpu_temp rv rx Hrv Hbus)
         as (w2 & E2 & _).
       rewrite E2 in E. inversion E. unfold EC_SUCCESS in *. congruence. }
  split; [reflexivity |].
  destruct (get_cpu_temp_reads w cpu_temp rx Hto Hlen
              (nth_is_byte rx 0 Hrx) (nth_is_byte rx 1 Hrx) Hbus)
    as (Hrange & E2).
  rewrite E2 in E. clear E2.
  set (o := (65536 - (nth 0 rx 0 + 256 * nth 1 rx 0)) / 64) in *.
  destruct (Z.geb_spec o CONFIG_PECI_TJMAX) as [Hge | Hlt].
  - inversion E. congruence.
  - unfold INT_MAX in Htj.
    rewrite (int32_small (CONFIG_PECI_TJMAX - o)) in E by lia.
    rewrite int32_small in E by lia.
    inversion E. lia.
Qed.

(** The bus of a world is the same after a call of the throttle and after
    a reading. *)
Lemma stop_read_keeps_bus (w w' : world) (rv : Z) :
  stop_read_peci_temp w = Some (rv, w') -> oob_bus w' = oob_bus w.
Proof.
  unfold stop_read_peci_temp, bind, get_time, chipset_in_state, get_t,
    get_read_count, put_read_count, put_t.
  world_proj.
  destruct (power w CHIPSET_STATE_ANY_OFF);
    [| world_proj; destruct (power w CHIPSET_STATE_STANDBY);
       [world_proj; destruct (uint64 (clock w - t_static w) <? 7 * SECOND);
        [| world_proj; destruct (int32 (read_count w + 1) >? 3)] |]];
    intros E; inversion E; reflexivity.
Qed.

Lemma get_cpu_temp_keeps_bus (w w' : world) (cpu_temp : Z) (r : Z * Z) :
  peci_over_espi_get_cpu_temp cpu_temp w = Some (r, w') ->
  oob_bus w' = oob_bus w.
Proof.
  unfold peci_over_espi_get_cpu_temp, bind, espi_oob_peci_transaction,
    cprints, espi_oob_retry_receive_date, lift.
  destruct (oob_bus w (trace w) _) as [rv rx].
  destruct (rv =? EC_ERROR_TIMEOUT); cbn [ret];
    (destruct (negb (rv =? 0));
     [intros E; inversion E; reflexivity |]);
    match goal with
    | |- context [load ?b 1] => destruct (load b 1); [| discriminate]
    end;
    match goal with
    | |- context [load ?b 0] => destruct (load b 0); [| discriminate]
    end;
    match goal with
    | |- context [if ?c then _ else _] => destruct c
    end;
    intros E; inversion E; reflexivity.
Qed.

(** X8. A reading that succeeds has taken its value from a successful
    transaction: it is [CONFIG_PECI_TJMAX - (65536 - v) / 64 + 273] for the
    raw value [v], strictly above 273 K and at most
    [CONFIG_PECI_TJMAX + 273] K. *)
Theorem get_cpu_temp_success_range (w w' : world) (cpu_temp k rv : Z)
  (rx : list Z) :
  EC_ERROR_TIMEOUT <> EC_SUCCESS ->
  EC_ERROR_INVAL <> EC_SUCCESS ->
  2 <= PECI_GET_TEMP_READ_LENGTH ->
  CONFIG_PECI_TJMAX <= INT_MAX - 273 ->
  oob_bus w (trace w) get_temp_request = (rv, rx) ->
  Forall is_byte rx ->
  peci_over_espi_get_cpu_temp cpu_temp w = Some ((EC_SUCCESS, k), w') ->
  rv = EC_SUCCESS /\
  k = CONFIG_PECI_TJMAX - (65536 - (nth 0 rx 0 + 256 * nth 1 rx 0)) / 64
      + 273 /\
  273 < k <= CONFIG_PECI_TJMAX + 273.
Proof.
  intros Hto Hinv Hlen Htj Hbus Hrx E.
  exact (get_cpu_temp_success w w' cpu_temp k rv rx
           Hto Hinv Hlen Htj Hbus Hrx E).
Qed.

(** X9. A reading the bus completes is accepted exactly when its raw value
    [v = b0 + 256 * b1] is above [65536 - 64 * CONFIG_PECI_TJMAX]; at or
    below that bound it fails with [EC_ERROR_INVAL].  A transaction that
    reports success without delivering a byte leaves the buffer at zero
    and is turned down as invalid while [CONFIG_PECI_TJMAX] is at most
    1024. *)
Theorem get_cpu_temp_threshold (w : world) (cpu_temp : Z) (rx : list Z) :
  EC_ERROR_TIMEOUT <> EC_SUCCESS ->
  2 <= PECI_GET_TEMP_READ_LENGTH ->
  CONFIG_PECI_TJMAX <= INT_MAX - 273 ->
  Forall is_byte rx ->
  oob_bus w (trace w) get_temp_request = (EC_SUCCESS, rx) ->
  let v := nth 0 rx 0 + 256 * nth 1 rx 0 in
  let w1 := log (Call_espi_oob_peci_transaction get_temp_request) w in
  (65536 - 64 * CONFIG_PECI_TJMAX < v ->
   peci_over_espi_get_cpu_temp cpu_temp w
   = Some ((EC_SUCCESS, CONFIG_PECI_TJMAX - (65536 - v) / 64 + 273), w1)) /\
  (v <= 65536 - 64 * CONFIG_PECI_TJMAX ->
   peci_over_espi_get_cpu_temp cpu_temp w
   = Some ((EC_ERROR_INVAL, (65536 - v) / 64), w1)) /\
  (rx = [] -> CONFIG_PECI_TJMAX <= 1024 ->
   peci_over_espi_get_cpu_temp cpu_temp w
   = Some ((EC_ERROR_INVAL, 1024), w1)).
Proof.
  intros Hto Hlen Htj Hrx Hbus v w1.
  destruct (get_cpu_temp_reads w cpu_temp rx Hto Hlen
              (nth_is_byte rx 0 Hrx) (nth_is_byte rx 1 Hrx) Hbus)
    as (Hrange & E).
  fold v in Hrange, E. fold w1 in E.
  assert (Hinvalid : v <= 65536 - 64 * CONFIG_PECI_TJMAX ->
                     peci_over_espi_get_cpu_temp cpu_temp w
                     = Some ((EC_ERROR_INVAL, (65536 - v) / 64), w1)).
  { intros Hv. rewrite E.
    replace ((65536 - v) / 64 >=? CONFIG_PECI_TJMAX) with true;
      [reflexivity |].
    symmetry. rewrite Z.geb_leb. apply Z.leb_le.
    apply Z.div_le_lower_bound; lia. }
  split; [| split; [exact Hinvalid |]].
  - intros Hv. rewrite E.
    assert (Hlt : (65536 - v) / 64 < CONFIG_PECI_TJMAX)
      by (apply Z.div_lt_upper_bound; lia).
    replace ((65536 - v) / 64 >=? CONFIG_PECI_TJMAX) with false
      by (symmetry; rewrite Z.geb_leb; apply Z.leb_gt; exact Hlt).
    unfold INT_MAX in Htj.
    rewrite (int32_small (CONFIG_PECI_TJMAX - (65536 - v) / 64)) by lia.
    rewrite int32_small by lia.
    reflexivity.
  - intros Hnil Htj'. subst rx.
    unfold v in Hinvalid. cbn [nth] in Hinvalid.
    apply Hinvalid. lia.
Qed.

(** X10. On a timeout of the transaction the reading logs its message and
    calls [espi_oob_retry_receive_date] once on the receive buffer, and
    still hands back the timeout: what the retry delivers is never
    decoded and the caller's cell keeps its value.  On any other failure
    nothing is called after the transaction. *)
Theorem get_cpu_temp_timeout_salvage (w : world) (cpu_temp rv : Z)
  (rx : list Z) :
  rv <> EC_SUCCESS ->
  oob_bus w (trace w) get_temp_request = (rv, rx) ->
  let w1 := log (Call_espi_oob_peci_transaction get_temp_request) w in
  (rv = EC_ERROR_TIMEOUT ->
   peci_over_espi_get_cpu_temp cpu_temp w
   = Some ((EC_ERROR_TIMEOUT, cpu_temp),
           log (Call_espi_oob_retry_receive_date
                  (fit (Z.to_nat PECI_GET_TEMP_READ_LENGTH) rx))
             (log (Call_cprints ESPI_GET_VALUE_TIMEOUT) w1))) /\
  (rv <> EC_ERROR_TIMEOUT ->
   peci_over_espi_get_cpu_temp cpu_temp w = Some ((rv, cpu_temp), w1)).
Proof.
  intros Hrv Hbus w1.
  assert (E : negb (rv =? 0) = true)
    by (apply negb_true_iff, Z.eqb_neq; exact Hrv).
  unfold peci_over_espi_get_cpu_temp, bind, espi_oob_peci_transaction.
  fold get_temp_request. rewrite Hbus. fold w1.
  rewrite receive_get_temp.
  split; intros Hto.
  - subst rv. rewrite Z.eqb_refl.
    unfold cprints, espi_oob_retry_receive_date. cbn [ret]. rewrite E.
    reflexivity.
  - replace (rv =? EC_ERROR_TIMEOUT) with false
      by (symmetry; apply Z.eqb_neq; exact Hto).
    cbn [ret]. rewrite E. reflexivity.
Qed.

(** X11. Whenever the entry point hands back success, the value in the
    caller's cell is a Kelvin temperature strictly above 273 and at most
    [CONFIG_PECI_TJMAX + 273], whether the first or the second attempt
    produced it. *)
Theorem temp_sensor_get_val_success_range (w : world) (idx temp k : Z) :
  EC_ERROR_TIMEOUT <> EC_SUCCESS ->
  EC_ERROR_INVAL <> EC_SUCCESS ->
  2 <= PECI_GET_TEMP_READ_LENGTH ->
  CONFIG_PECI_TJMAX <= INT_MAX - 273 ->
  (forall (tr : list event) (req : peci_data),
      Forall is_byte (snd (oob_bus w tr req))) ->
  option_map fst (peci_over_espi_temp_sensor_get_val idx temp w)
  = Some (EC_SUCCESS, k) ->
  273 < k <= CONFIG_PECI_TJMAX + 273.
Proof.
  intros Hto Hinv Hlen Htj Hbytes E.
  destruct (get_val_structure w idx temp Hlen)
    as (rv0 & w0 & ex0 & E0 & _ & _ & Hcases).
  pose proof (stop_read_keeps_bus _ _ _ E0) as B0.
  destruct Hcases as [[Hrv0 E'] | (_ & rv1 & c1 & w1 & ex1 & E1 & _ & _
                                   & Hcases)].
  { rewrite E' in E. cbn [option_map fst] in E. inversion E. congruence. }
  pose proof (get_cpu_temp_keeps_bus _ _ _ _ E1) as B1.
  destruct Hcases as [[Hrv1 E'] | (_ & rv2 & c2 & w2 & ex2 & E2 & _ & _ & E')].
  - rewrite E' in E. cbn [option_map fst] in E. inversion E; subst rv1 c1.
    destruct (oob_bus w0 (trace w0) get_temp_request) as [rv rx] eqn:Hbus.
    eapply (get_cpu_temp_success w0 w1 temp k rv rx); try eassumption.
    specialize (Hbytes (trace w0) get_temp_request).
    rewrite <- B0, Hbus in Hbytes. exact Hbytes.
  - rewrite E' in E. cbn [option_map fst] in E. inversion E; subst rv2 c2.
    destruct (oob_bus w1 (trace w1) get_temp_request) as [rv rx] eqn:Hbus.
    eapply (get_cpu_temp_success w1 w2 c1 k rv rx); try eassumption.
    specialize (Hbytes (trace w1) get_temp_request).
    rewrite <- B0, <- B1, Hbus in Hbytes. exact Hbytes.
Qed.

(** X12. When the first attempt decodes an offset at or above
    [CONFIG_PECI_TJMAX] and the transaction of the second attempt fails,
    the entry point hands back the status of that transaction while the
    caller's cell holds the offset the first attempt wrote, not the value
    it held before the call. *)
Theorem temp_sensor_get_val_clobbers (w w0 : world) (idx temp b0 b1 rv2 : Z)
  (rest rx2 : list Z) :
  EC_ERROR_TIMEOUT <> EC_SUCCESS ->
  EC_ERROR_INVAL <> EC_SUCCESS ->
  2 <= PECI_GET_TEMP_READ_LENGTH ->
  0 <= b0 < 256 -> 0 <= b1 < 256 ->
  stop_read_peci_temp w = Some (EC_SUCCESS, w0) ->
  oob_bus w0 (trace w0) get_temp_request = (EC_SUCCESS, b0 :: b1 :: rest) ->
  let o := Z.shiftr (Z.lxor (Z.lor b0 (Z.shiftl b1 8)) 0xFFFF + 1) 6 in
  CONFIG_PECI_TJMAX <= o ->
  oob_bus w0
    (trace w0 ++ [Call_espi_oob_peci_transaction get_temp_request])
    get_temp_request = (rv2, rx2) ->
  rv2 <> EC_SUCCESS ->
  exists w' : world,
    peci_over_espi_temp_sensor_get_val idx temp w = Some ((rv2, o), w').
Proof.
  intros Hto Hinv Hlen H0 H1 E0 Hbus1 o Ho Hbus2 Hrv2.
  pose proof (get_cpu_temp_converts w0 temp b0 b1 rest Hto Hlen H0 H1 Hbus1)
    as E1.
  cbn zeta in E1. fold o in E1.
  replace (o >=? CONFIG_PECI_TJMAX) with true in E1
    by (symmetry; rewrite Z.geb_leb; apply Z.leb_le; exact Ho).
  destruct (get_cpu_temp_bus_failure
              (log (Call_espi_oob_peci_transaction get_temp_request) w0)
              o rv2 rx2 Hrv2 Hbus2) as (w' & E2 & _).
  exists w'.
  exact (get_val_second w w0 _ w' idx temp EC_ERROR_INVAL o rv2 o
           E0 E1 Hinv E2).
Qed.

(** X13. When the first attempt fails, in whatever way, and the second
    transaction delivers a reading below the ceiling, the entry point hands
    back success with the Kelvin value of the second reading. *)
Theorem temp_sensor_get_val_recovers (w w0 w1 : world)
  (idx temp rv1 c1 b0 b1 : Z) (rest : list Z) :
  EC_ERROR_TIMEOUT <> EC_SUCCESS ->
  2 <= PECI_GET_TEMP_READ_LENGTH ->
  CONFIG_PECI_TJMAX <= INT_MAX - 273 ->
  0 <= b0 < 256 -> 0 <= b1 < 256 ->
  stop_read_peci_temp w = Some (EC_SUCCESS, w0) ->
  peci_over_espi_get_cpu_temp temp w0 = Some ((rv1, c1), w1) ->
  rv1 <> EC_SUCCESS ->
  oob_bus w1 (trace w1) get_temp_request = (EC_SUCCESS, b0 :: b1 :: rest) ->
  let o := Z.shiftr (Z.lxor (Z.lor b0 (Z.shiftl b1 8)) 0xFFFF + 1) 6 in
  o < CONFIG_PECI_TJMAX ->
  peci_over_espi_temp_sensor_get_val idx temp w
  = Some ((EC_SUCCESS, CONFIG_PECI_TJMAX - o + 273),
          log (Call_espi_oob_peci_transaction get_temp_request) w1).
Proof.
  intros Hto Hlen Htj H0 H1 E0 E1 Hrv1 Hbus o Ho.
  pose proof (get_cpu_temp_converts w1 c1 b0 b1 rest Hto Hlen H0 H1 Hbus)
    as E2.
  cbn zeta in E2. fold o in E2.
  replace (o >=? CONFIG_PECI_TJMAX) with false in E2
    by (symmetry; rewrite Z.geb_leb; apply Z.leb_gt; exact Ho).
  destruct (offset_value b0 b1 H0 H1) as (_ & _ & _ & Hrange).
  fold o in Hrange. unfold INT_MAX in Htj.
  rewrite (int32_small (CONFIG_PECI_TJMAX - o)) in E2 by lia.
  rewrite int32_small in E2 by lia.
  exact (get_val_second w w0 w1 _ idx temp rv1 c1 EC_SUCCESS _
           E0 E1 Hrv1 E2).
Qed.

End Readings.

(** ** The further properties on the demonstration platform *)

(** Two calls while off, the statics at 3 and 2 before and after. *)
Lemma throttle_off_period_witness :
  exists w' : world,
    @throttle_schedule demo_platform [(power_off, 5); (power_off, 9)]
      (demo_world power_on 7 0 3 2 0 0 [])
    = Some ([8; 8], w') /\
    t_static w' = 3 /\ read_count w' = 2.
Proof.
  destruct (@throttle_off_period demo_platform
              [(power_off, 5); (power_off, 9)]
              (demo_world power_on 7 0 3 2 0 0 []))
    as (w' & E & Ht & Hn & _).
  - repeat constructor.
  - exists w'. split; [exact E | split; [exact Ht | exact Hn]].
Defined.

(** On at 1 s with the counter at 3, then standby at 8 s: let through,
    the counter at 1. *)
Lemma throttle_active_then_standby_witness :
  exists w1 w2 : world,
    @stop_read_peci_temp demo_platform
      (demo_world power_on 7 1000000 0 3 0 0 [])
    = Some (0, w1) /\
    @stop_read_peci_temp demo_platform
      (set_clock 8000000 (set_power power_standby w1))
    = Some (0, w2) /\
    read_count w2 = 1.
Proof.
  destruct (@throttle_active_then_standby demo_platform
              (demo_world power_on 7 1000000 0 3 0 0 [])
              power_standby 8000000)
    as (w1 & E1 & _ & _ & _ & Hlate); [by_evaluation .. |].
  destruct Hlate as (w2 & E2 & _ & Hn); [by_evaluation |].
  exists w1, w2. split; [exact E1 | split; [exact E2 | exact Hn]].
Defined.

(** Three calls let through from 7 s on, the fourth turned down, the next
    one let through at 14.000003 s: 7.000003 s after the first. *)
Lemma throttle_standby_burst_witness :
  7 * @SECOND demo_platform <= 14000003 - 7000000.
Proof.
  refine (@throttle_standby_burst demo_platform
            (demo_world power_standby 7 0 0 0 0 0 [])
            [7000000; 7000001; 7000002; 7000003; 14000002; 14000003]
            [0; 0; 0; 8; 8; 0] 0 5 7000000 14000003
            _ _ _ _ _ _ _ _ _ _ _ _).
  - by_evaluation.
  - by_evaluation.
  - by_evaluation.
  - by_evaluation.
  - repeat constructor; by_evaluation.
  - repeat constructor; by_evaluation.
  - by_evaluation.
  - vm_compute. repeat constructor.
  - by_evaluation.
  - by_evaluation.
  - by_evaluation.
  - vm_compute. repeat constructor.
Defined.

Lemma throttle_schedule_invariant_witness :
  exists (rvs : list Z) (w' : world),
    @throttle_schedule demo_platform
      [(power_standby, 7000000); (power_on, 7000001); (power_off, 7000002)]
      (demo_world power_on 7 0 0 3 0 0 [])
    = Some (rvs, w') /\
    0 <= read_count w' <= 3.
Proof.
  destruct (@throttle_schedule_invariant demo_platform
              [(power_standby, 7000000); (power_on, 7000001);
               (power_off, 7000002)]
              (demo_world power_on 7 0 0 3 0 0 []))
    as (rvs & w' & E & _ & _ & Hn).
  - by_evaluation.
  - exists rvs, w'. split; [exact E | exact Hn].
Defined.

(** The double-word length: offsets 4 to 7 decode to the whole word. *)
Lemma wr_pkg_config_payload_decodes_witness :
  exists (rv : Z) (w' : world) (out : list Z),
    @peci_Wr_Pkg_Config demo_platform 0x1A 0x1234 0x11223344 10
      (demo_world power_on 7 0 0 0 0 0 [])
    = Some (rv, w') /\
    le_combine (firstn 4 (skipn 4 out)) = 0x11223344.
Proof.
  destruct (@wr_pkg_config_payload_decodes demo_platform
              (demo_world power_on 7 0 0 0 0 0 [])
              0x1A 0x1234 0x11223344 10)
    as (rv & w' & out & E & _ & _ & Hfull); [by_evaluation .. |].
  exists rv, w', out. split; [exact E |].
  apply Hfull. by_evaluation.
Defined.

(** A read frame of 5 bytes: the fifth is what the array held; the bus
    delivers nothing and the caller's buffer keeps its four 9s. *)
Lemma rd_pkg_config_frame_witness :
  exists (out : list Z) (w' : world),
    length out = 5%nat /\
    firstn 4 out = [0x00; 0x1A; 0x34; 0x12] /\
    nth_error out 4 = Some 0xAA /\
    @peci_Rd_Pkg_Config demo_platform 0x1A 0x1234 4 [9; 9; 9; 9]
      (demo_world power_on 7 0 0 0 3 0 [])
    = Some ((3, [9; 9; 9; 9]), w').
Proof.
  destruct (@rd_pkg_config_frame demo_platform
              (demo_world power_on 7 0 0 0 3 0 [])
              0x1A 0x1234 4 [9; 9; 9; 9])
    as (out & Hlen & Hhead & Htail & E & Hkeep & _); [by_evaluation |].
  exists out. eexists.
  split; [exact Hlen | split; [exact Hhead | split]].
  - apply (Htail 4%nat). vm_compute. split; repeat constructor.
  - rewrite E. rewrite Hkeep by reflexivity. reflexivity.
Defined.

Lemma get_cpu_temp_success_range_witness :
  273 < 334 <= @CONFIG_PECI_TJMAX demo_platform + 273.
Proof.
  refine (proj2 (proj2
            (@get_cpu_temp_success_range demo_platform
               (demo_world power_on 7 0 0 0 0 0 [0x40; 0xF6])
               (log (Call_espi_oob_peci_transaction
                       (@get_temp_request demo_platform))
                  (demo_world power_on 7 0 0 0 0 0 [0x40; 0xF6]))
               0 334 0 [0x40; 0xF6] _ _ _ _ _ _ _)));
    try (by_evaluation; fail).
  repeat constructor; by_evaluation.
Defined.

(** A success that delivers no byte is turned down with offset 1024. *)
Lemma get_cpu_temp_threshold_witness :
  @peci_over_espi_get_cpu_temp demo_platform 7
    (demo_world power_on 7 0 0 0 0 0 [])
  = Some ((5, 1024),
          log (Call_espi_oob_peci_transaction
                 (@get_temp_request demo_platform))
            (demo_world power_on 7 0 0 0 0 0 [])).
Proof.
  refine (proj2 (proj2
            (@get_cpu_temp_threshold demo_platform
               (demo_world power_on 7 0 0 0 0 0 []) 7 [] _ _ _ _ _))
            _ _);
    try (by_evaluation; fail).
  constructor.
Defined.

(** A timeout: the cell keeps its 7. *)
Lemma get_cpu_temp_timeout_salvage_witness :
  exists w' : world,
    @peci_over_espi_get_cpu_temp demo_platform 7
      (demo_world power_on 7 0 0 0 0 4 [1; 2])
    = Some ((4, 7), w').
Proof.
  eexists.
  refine (proj1 (@get_cpu_temp_timeout_salvage demo_platform
                   (demo_world power_on 7 0 0 0 0 4 [1; 2]) 7 4 [1; 2] _ _)
            _);
    by_evaluation.
Defined.

Lemma temp_sensor_get_val_success_range_witness :
  273 < 334 <= @CONFIG_PECI_TJMAX demo_platform + 273.
Proof.
  refine (@temp_sensor_get_val_success_range demo_platform
            (demo_world power_on 7 0 0 0 0 0 [0x40; 0xF6]) 0 7 334
            _ _ _ _ _ _).
  - by_evaluation.
  - by_evaluation.
  - by_evaluation.
  - by_evaluation.
  - intros tr req. repeat constructor; by_evaluation.
  - by_evaluation.
Defined.

(** First reading 0x0000 (offset 1024), second transaction timing out:
    status 4 with 1024 in the cell that held 7. *)
Lemma temp_sensor_get_val_clobbers_witness :
  exists w' : world,
    @peci_over_espi_temp_sensor_get_val demo_platform 0 7
      (demo_world_retry 0 [0; 0] 4 [])
    = Some ((4, 1024), w').
Proof.
  refine (@temp_sensor_get_val_clobbers demo_platform
            (demo_world_retry 0 [0; 0] 4 [])
            (set_t 0 (set_read_count 0
                        (throttle_log (demo_world_retry 0 [0; 0] 4 []))))
            0 7 0 0 4 [] [] _ _ _ _ _ _ _ _ _ _);
    by_evaluation.
Defined.

(** First transaction timing out, second reading 0xF640: 334 K. *)
Lemma temp_sensor_get_val_recovers_witness :
  exists w' : world,
    @peci_over_espi_temp_sensor_get_val demo_platform 0 7
      (demo_world_retry 4 [] 0 [0x40; 0xF6])
    = Some ((0, 334), w').
Proof.
  eexists.
  refine (@temp_sensor_get_val_recovers demo_platform
            (demo_world_retry 4 [] 0 [0x40; 0xF6])
            (set_t 0 (set_read_count 0
                        (throttle_log
                           (demo_world_retry 4 [] 0 [0x40; 0xF6]))))
            (log (Call_espi_oob_retry_receive_date [0; 0])
               (log (Call_cprints ESPI_GET_VALUE_TIMEOUT)
                  (log (Call_espi_oob_peci_transaction
                          (@get_temp_request demo_platform))
                     (set_t 0 (set_read_count 0
                                 (throttle_log
                                    (demo_world_retry 4 [] 0
                                       [0x40; 0xF6])))))))
            0 7 4 7 0x40 0xF6 [] _ _ _ _ _ _ _ _ _ _);
    by_evaluation.
Defined.
